(** * The command-execution tool of vscode-as-mcp-server

    A shallow embedding of
    [packages/extension/src/tools/execute_command.ts]:
    the zod request schema [executeCommandSchema], the class
    [ExecuteCommandTool] with its [execute] and [ask] methods, and the
    entry point [executeCommandToolHandler].

    JavaScript strings are sequences of UTF-16 code units; the asynchronous
    method [execute] is written in a small monad that threads the shared
    terminal pool and records, in program order, every effect on the host
    (prompts, terminal acquisition, timers, awaits).  What the outside world
    answers (the configuration, the human's decision, the events the running
    process delivers while [execute] is suspended) is an explicit argument. *)

From Stdlib Require Import ZArith NArith List Ascii String DecimalString Lia.
From stdpp Require Import base option list countable gmap.

Local Open Scope N_scope.
Local Open Scope list_scope.

(** ** JavaScript strings *)

Module JS.

(** A string is the list of its UTF-16 code units. *)
Abbreviation jsstring := (list N).

(** An ASCII literal of the source text. *)
Definition lit (s : String.string) : jsstring :=
  map N_of_ascii (list_ascii_of_string s).

(** The line feed written [\n] in the source. *)
Definition nl : jsstring := [10].

(** ECMAScript WhiteSpace and LineTerminator code points, the ones
    [String.prototype.trim] strips.  All of them are in the basic plane,
    so each is one code unit. *)
Definition isWhiteSpace (c : N) : bool :=
  (c =? 9) || (c =? 10) || (c =? 11) || (c =? 12) || (c =? 13) || (c =? 32)
  || (c =? 160) || (c =? 5760) || ((8192 <=? c) && (c <=? 8202))
  || (c =? 8232) || (c =? 8233) || (c =? 8239) || (c =? 8287)
  || (c =? 12288) || (c =? 65279).

Fixpoint trimStart (s : jsstring) : jsstring :=
  match s with
  | [] => []
  | c :: s' => if isWhiteSpace c then trimStart s' else s
  end.

Definition trimEnd (s : jsstring) : jsstring := rev (trimStart (rev s)).

(** [String.prototype.trim] *)
Definition trim (s : jsstring) : jsstring := trimEnd (trimStart s).

(** [Array.prototype.join] *)
Fixpoint join (sep : jsstring) (parts : list jsstring) : jsstring :=
  match parts with
  | [] => []
  | [p] => p
  | p :: rest => p ++ sep ++ join sep rest
  end.

(** A string in a boolean position is true when it is not empty. *)
Definition truthy (s : jsstring) : bool :=
  match s with [] => false | _ => true end.

(** [a || b] on an optional string: [undefined] and the empty string are
    both falsy. *)
Definition orElse (a : option jsstring) (b : jsstring) : jsstring :=
  match a with
  | Some s => if truthy s then s else b
  | None => b
  end.

(** A number inside a template literal.  Numbers are the integers; for
    an integer of magnitude below 10^21 this decimal form is what
    [Number.prototype.toString] prints.  From 10^21 on the language prints
    an exponent form, which is not modelled: what is stated about the
    digits of a number is stated below that bound. *)
Definition Number_toString (z : Z) : jsstring :=
  lit (NilEmpty.string_of_int (Z.to_int z)).

(** [String.prototype.includes] as a relation, and [startsWith]. *)
Definition includes (text part : jsstring) : Prop :=
  exists before after, text = before ++ part ++ after.

Definition startsWith (text part : jsstring) : Prop :=
  exists after, text = part ++ after.

End JS.
Import JS.

(** ** The request schema (zod) *)

Module Zod.

(** A value as it arrives in the request object; a key that is absent
    reads as [JUndefined]. *)
Inductive json :=
| JUndefined
| JNull
| JBool (b : bool)
| JNumber (z : Z)
| JString (s : jsstring)
| JOther.

Definition string (j : json) : option jsstring :=
  match j with JString s => Some s | _ => None end.

Definition boolean (j : json) : option bool :=
  match j with JBool b => Some b | _ => None end.

Definition number (j : json) : option Z :=
  match j with JNumber z => Some z | _ => None end.

(** [.optional()] lets [undefined] through. *)
Definition optional {A} (inner : json -> option A) (j : json)
  : option (option A) :=
  match j with
  | JUndefined => Some None
  | _ => match inner j with Some a => Some (Some a) | None => None end
  end.

(** [.default(d)] replaces [undefined] by [d] before the inner schema
    runs. *)
Definition default {A} (inner : json -> option (option A)) (d : A)
  (j : json) : option A :=
  match j with
  | JUndefined => Some d
  | _ => match inner j with
         | Some (Some a) => Some a
         | Some None => Some d
         | None => None
         end
  end.

End Zod.

Record RawRequest := {
  raw_command : Zod.json;
  raw_customCwd : Zod.json;
  raw_modifySomething : Zod.json;
  raw_background : Zod.json;
  raw_timeout : Zod.json
}.

(** [z.infer<typeof executeCommandSchema>] *)
Record Params := {
  command : jsstring;
  customCwd : option jsstring;
  modifySomething : bool;
  background : bool;
  timeout : Z
}.

(** [executeCommandSchema.parse]; [None] is a validation error. *)
Definition executeCommandSchema (r : RawRequest) : option Params :=
  match Zod.string (raw_command r),
        Zod.optional Zod.string (raw_customCwd r),
        Zod.default (Zod.optional Zod.boolean) true (raw_modifySomething r),
        Zod.default (Zod.optional Zod.boolean) false (raw_background r),
        Zod.default (Zod.optional Zod.number) 300000%Z (raw_timeout r) with
  | Some c, Some cwd, Some m, Some b, Some t =>
      Some {| command := c; customCwd := cwd; modifySomething := m;
              background := b; timeout := t |}
  | _, _, _, _, _ => None
  end.

(** ** Effects and the shared terminal pool *)

(** What the process handle returned by [TerminalManager.runCommand]
    emits. *)
Inductive ProcessEvent :=
| Line (line : jsstring)
| Completed
| NoShellIntegration.

Inductive EventName := EvLine | EvCompleted | EvNoShellIntegration.

(** What a call does to the host, in program order. *)
Inductive Effect :=
| ConsoleLog (msg : jsstring)
| Confirm (title message approveLabel denyLabel : jsstring)
| AcquireTerminal (dir : jsstring) (terminalId : N)
| TerminalShow (terminalId : N)
| RunCommand (terminalId : N) (command : jsstring)
| ProcessOn (name : EventName)
| ProcessOnce (name : EventName)
| SetTimeout (ms : Z)
| AwaitRace
| Delay (ms : Z)
| ShowWarningMessage (msg : jsstring).

(** Modelled from the spec: the type [TerminalInfo] of
    [integrations/terminal/TerminalManager], of which [execute] reads [id]
    and shows the terminal.  A session has a unique identifier, the working
    directory it is bound to and a liveness flag; whether it has shell
    integration is seen through the [no_shell_integration] event of the
    process it runs. *)
Record TerminalInfo := {
  id : N;
  workingDirectory : jsstring;
  live : bool
}.

(** Modelled from the spec: the pool of sessions behind [TerminalManager],
    one mapping from working directory to session for the whole extension
    host, shared by every [TerminalManager] handle. *)
Record Store := {
  pool : gmap jsstring TerminalInfo;
  nextTerminalId : N
}.

Definition emptyStore : Store := {| pool := ∅; nextTerminalId := 1 |}.

Definition M (A : Type) : Type := Store -> A * Store * list Effect.

Definition ret {A} (a : A) : M A := fun st => (a, st, []).

Definition bind {A B} (m : M A) (k : A -> M B) : M B :=
  fun st =>
    let '(a, st1, t1) := m st in
    let '(b, st2, t2) := k a st1 in
    (b, st2, t1 ++ t2).

#[global] Instance M_ret : MRet M := @ret.
#[global] Instance M_bind : MBind M := fun A B k m => bind m k.

Definition emit (e : Effect) : M unit := fun st => (tt, st, [e]).

Definition value {A} (r : A * Store * list Effect) : A := r.1.1.
Definition store {A} (r : A * Store * list Effect) : Store := r.1.2.
Definition trace {A} (r : A * Store * list Effect) : list Effect := r.2.

(** Modelled from the spec: a new session for a working directory, live,
    with a fresh identifier; it takes the directory's place in the pool. *)
Definition createTerminal (dir : jsstring) : M TerminalInfo :=
  fun st =>
    let t :=
      {| id := nextTerminalId st; workingDirectory := dir; live := true |} in
    (t,
     {| pool := <[dir := t]> (pool st);
        nextTerminalId := N.succ (nextTerminalId st) |},
     []).

(** Modelled from the spec: [TerminalManager.getOrCreateTerminal], which is
    not among the sources.  It returns the live session bound to the working
    directory when there is one, and otherwise makes a new one. *)
Definition getOrCreateTerminal (dir : jsstring) : M TerminalInfo :=
  fun st =>
    let '(t, st', _) :=
      match pool st !! dir with
      | Some t => if live t then (t, st, []) else createTerminal dir st
      | None => createTerminal dir st
      end in
    (t, st', [AcquireTerminal dir (id t)]).

(** Modelled from the spec: the shell of a session is closed from outside;
    the subsystem itself never does this. *)
Definition closeExternally (dir : jsstring) (st : Store) : Store :=
  match pool st !! dir with
  | Some t =>
      {| pool := <[dir := {| id := id t;
                             workingDirectory := workingDirectory t;
                             live := false |}]> (pool st);
         nextTerminalId := nextTerminalId st |}
  | None => st
  end.

(** ** The tool *)

(** Modelled from the spec: [ToolResponse] and [formatResponse.toolResult]
    of [utils/response], a result that carries its text payload, which
    the handler reads back as [response.text]. *)
Record ToolResponse := { text : jsstring }.

Module formatResponse.
Definition toolResult (s : jsstring) : ToolResponse := {| text := s |}.
End formatResponse.

(** What the world answers during one call of [execute]. *)
Record Env := {
  (** the [mcpServer.confirmNonDestructiveCommands] setting, when set *)
  confirmNonDestructiveCommands : option bool;
  (** what [ConfirmationUI.confirm] resolves to *)
  userResponse : jsstring;
  (** the events the process delivers while [execute] awaits the race
      between the process and the timer *)
  duringRace : list ProcessEvent;
  (** the events it delivers during the 50 ms delay that follows *)
  duringDelay : list ProcessEvent
}.

(** [config.get<boolean>(key, defaultValue)] *)
Definition config_get {A} (setting : option A) (defaultValue : A) : A :=
  from_option (fun a => a) defaultValue setting.

Record ExecuteCommandTool := {
  cwd : jsstring
}.

(** [new ExecuteCommandTool(cwd)]; its [TerminalManager] is a handle on the
    shared pool. *)
Definition newExecuteCommandTool (root : jsstring) : ExecuteCommandTool :=
  {| cwd := root |}.

(** [ExecuteCommandTool.ask] *)
Definition ask (env : Env) (command : jsstring) : M jsstring :=
  emit (Confirm (lit "Execute Command?") command (lit "Execute Command")
          (lit "Deny"));;
  mret (userResponse env).

(** The variables the listeners registered by [execute] close over. *)
Record Listeners := {
  result : jsstring;
  completed : bool;
  warned : bool
}.

(** The listeners' variables when they are registered: [result] empty,
    [completed = false], no warning shown yet. *)
Definition noEvents : Listeners :=
  {| result := []; completed := false; warned := false |}.

(** One event reaches the listeners: [on("line")] appends to [result],
    [once("completed")] raises the flag, [once("no_shell_integration")]
    warns the first time only. *)
Definition dispatch (ls : Listeners) (ev : ProcessEvent) : M Listeners :=
  match ev with
  | Line line =>
      mret {| result := result ls ++ line ++ nl;
              completed := completed ls; warned := warned ls |}
  | Completed =>
      mret {| result := result ls; completed := true; warned := warned ls |}
  | NoShellIntegration =>
      if warned ls then mret ls
      else
        emit (ShowWarningMessage
                (lit "Shell integration is not available. Some features may be limited."));;
        mret {| result := result ls; completed := completed ls;
                warned := true |}
  end.

Fixpoint deliver (evs : list ProcessEvent) (ls : Listeners) : M Listeners :=
  match evs with
  | [] => mret ls
  | ev :: evs' => ls' ← dispatch ls ev; deliver evs' ls'
  end.

(** The fixed parts of the texts [execute] returns. *)
Definition startedInBackground : jsstring :=
  lit "Command started in background mode and is running in the terminal (id: ".

Definition pollLater : jsstring :=
  lit "You can check the output later using the get_terminal_output tool with this terminal id.".

Definition pollMore : jsstring :=
  lit "You can check for more output later using the get_terminal_output tool with this terminal id.".

Definition deniedText (userResponse : jsstring) : jsstring :=
  lit "Command execution was denied by the user. "
  ++ (if bool_decide (userResponse <> lit "Deny")
      then lit "Feedback: " ++ userResponse else []).

Definition backgroundText (terminalId : N) : jsstring :=
  startedInBackground ++ Number_toString (Z.of_N terminalId) ++ lit "). "
  ++ pollLater.

Definition completedText (terminalId : N) (result : jsstring) : jsstring :=
  lit "Command executed in terminal (id: "
  ++ Number_toString (Z.of_N terminalId) ++ lit ")."
  ++ (if truthy result then nl ++ lit "Output:" ++ nl ++ result else []).

Definition timeoutMessage (timeout : Z) : jsstring :=
  if bool_decide (timeout <> 300000%Z)
  then lit " (timeout: " ++ Number_toString timeout ++ lit "ms)" else [].

Definition stillRunningText (terminalId : N) (timeout : Z)
  (result : jsstring) : jsstring :=
  lit "Command is still running in terminal (id: "
  ++ Number_toString (Z.of_N terminalId) ++ lit ")" ++ timeoutMessage timeout
  ++ lit "."
  ++ (if truthy result
      then nl ++ lit "Here's the output so far:" ++ nl ++ result else [])
  ++ nl ++ nl ++ pollMore.

(** [ExecuteCommandTool.execute].  The last three parameters have default
    values, used when the argument is [undefined]. *)
Definition execute (env : Env) (this : ExecuteCommandTool)
  (command : jsstring) (customCwd : option jsstring)
  (modifySomething : option bool) (background : option bool)
  (timeout : option Z) : M (bool * ToolResponse) :=
  let modifySomething := from_option (fun b => b) true modifySomething in
  let background := from_option (fun b => b) false background in
  let timeout := from_option (fun t => t) 300000%Z timeout in
  let confirmNonDestructiveCommands :=
    config_get (confirmNonDestructiveCommands env) false in
  let shouldConfirm := modifySomething || confirmNonDestructiveCommands in
  denied ←
    (if shouldConfirm then
       userResponse ← ask env command;
       if bool_decide (userResponse <> lit "Approve")
       then mret (Some (false,
                        formatResponse.toolResult (deniedText userResponse)))
       else mret None
     else
       emit (ConsoleLog
               (lit "Executing read-only command without confirmation: "
                ++ command));;
       mret None);
  match denied with
  | Some rejection => mret rejection
  | None =>
      terminalInfo ← getOrCreateTerminal (orElse customCwd (cwd this));
      emit (TerminalShow (id terminalInfo));;
      emit (RunCommand (id terminalInfo) command);;
      let ls := noEvents in
      emit (ProcessOn EvLine);;
      emit (ProcessOnce EvCompleted);;
      emit (ProcessOnce EvNoShellIntegration);;
      if background then
        let terminalId := id terminalInfo in
        mret (false, formatResponse.toolResult (backgroundText terminalId))
      else
        emit (SetTimeout timeout);;
        emit AwaitRace;;
        ls ← deliver (duringRace env) ls;
        emit (Delay 50);;
        ls ← deliver (duringDelay env) ls;
        let result := trim (result ls) in
        let terminalId := id terminalInfo in
        if completed ls then
          mret (false, formatResponse.toolResult
                         (completedText terminalId result))
        else
          mret (false, formatResponse.toolResult
                         (stillRunningText terminalId timeout result))
  end.

(** ** The handler *)

Record Response := {
  isError : bool;
  content : list jsstring
}.

(** [vscode.workspace.workspaceFolders?.[0]?.uri.fsPath]: the folders are
    given by their [fsPath]. *)
Definition firstFolder (workspaceFolders : option (list jsstring))
  : option jsstring :=
  match workspaceFolders with
  | Some (p :: _) => Some p
  | _ => None
  end.

(** [!workspaceRoot] fails for a root that is there and not empty. *)
Definition resolvable (workspaceRoot : option jsstring) : bool :=
  match workspaceRoot with
  | Some p => truthy p
  | None => false
  end.

Definition executeCommandToolHandler
  (workspaceFolders : option (list jsstring)) (env : Env) (params : Params)
  : M Response :=
  let workspaceRoot := firstFolder workspaceFolders in
  match workspaceRoot with
  | Some root =>
      if truthy root then
        let tool := newExecuteCommandTool root in
        '(success, response) ←
          execute env tool (command params) (customCwd params)
            (Some (modifySomething params)) (Some (background params))
            (Some (timeout params));
        mret {| isError := negb success; content := [text response] |}
      else
        mret {| isError := true;
                content := [lit "No workspace folder is open"] |}
  | None =>
      mret {| isError := true;
              content := [lit "No workspace folder is open"] |}
  end.

(** ** Vocabulary of the properties *)

(** The output lines among the delivered events, in order of delivery. *)
Fixpoint linesOf (evs : list ProcessEvent) : list jsstring :=
  match evs with
  | [] => []
  | Line l :: evs' => l :: linesOf evs'
  | _ :: evs' => linesOf evs'
  end.

(** Whether a [completed] event is among the delivered events. *)
Fixpoint hasCompleted (evs : list ProcessEvent) : bool :=
  match evs with
  | [] => false
  | Completed :: _ => true
  | _ :: evs' => hasCompleted evs'
  end.

(** The events delivered by the time [execute] reads [result] and
    [completed]: those of the race, then those of the delay. *)
Definition delivered (env : Env) : list ProcessEvent :=
  duringRace env ++ duringDelay env.

(** Whether a call gets past the confirmation gate: no confirmation is
    needed, or the human answers [Approve]. *)
Definition shouldConfirm (env : Env) (modifySomething : bool) : bool :=
  modifySomething || config_get (confirmNonDestructiveCommands env) false.

Definition proceeds (env : Env) (modifySomething : bool) : bool :=
  negb (shouldConfirm env modifySomething)
  || bool_decide (userResponse env = lit "Approve").

Definition isConfirm (e : Effect) : bool :=
  match e with Confirm _ _ _ _ => true | _ => false end.

(** Setting up the timer, awaiting the race, awaiting the delay. *)
Definition isWaiting (e : Effect) : bool :=
  match e with SetTimeout _ | AwaitRace | Delay _ => true | _ => false end.

(** Acquiring or showing a session, starting or listening to a process. *)
Definition touchesTerminal (e : Effect) : bool :=
  match e with
  | AcquireTerminal _ _ | TerminalShow _ | RunCommand _ _
  | ProcessOn _ | ProcessOnce _ => true
  | _ => false
  end.

Definition isWarning (e : Effect) : bool :=
  match e with ShowWarningMessage _ => true | _ => false end.

(** The sessions a trace acquires: directory asked for, identifier got. *)
Fixpoint acquired (tr : list Effect) : list (jsstring * N) :=
  match tr with
  | [] => []
  | AcquireTerminal dir i :: tr' => (dir, i) :: acquired tr'
  | _ :: tr' => acquired tr'
  end.

Definition theText (r : bool * ToolResponse) : jsstring := text r.2.

(** The listeners' variables when [execute] reads them: the events of the
    race then those of the delay have been dispatched. *)
Definition atRead (env : Env) (st : Store) : Listeners :=
  value (deliver (duringDelay env)
           (value (deliver (duringRace env) noEvents st)) st).

(** What the confirmation gate does when it lets the call through. *)
Definition gateTrace (env : Env) (command : jsstring) (modifySomething : bool)
  : list Effect :=
  if shouldConfirm env modifySomething
  then [Confirm (lit "Execute Command?") command (lit "Execute Command")
          (lit "Deny")]
  else [ConsoleLog (lit "Executing read-only command without confirmation: "
                    ++ command)].

(** Acquiring the session, showing it, starting the process and
    registering the three listeners. *)
Definition startTrace (dir : jsstring) (i : N) (command : jsstring)
  : list Effect :=
  [AcquireTerminal dir i; TerminalShow i; RunCommand i command;
   ProcessOn EvLine; ProcessOnce EvCompleted;
   ProcessOnce EvNoShellIntegration].

(** The timer, the race and the delay, with the warnings shown meanwhile. *)
Definition waitTrace (env : Env) (timeout : Z) (st : Store) : list Effect :=
  [SetTimeout timeout; AwaitRace]
  ++ trace (deliver (duringRace env) noEvents st)
  ++ [Delay 50]
  ++ trace (deliver (duringDelay env)
              (value (deliver (duringRace env) noEvents st)) st).

(** ** Searching a text *)



(** ** Scenarios *)

(** A world with the override unset, one answer to the prompt and the
    events delivered during the race. *)
Definition world (answer : jsstring) (race : list ProcessEvent) : Env :=
  {| confirmNonDestructiveCommands := None; userResponse := answer;
     duringRace := race; duringDelay := [] |}.

(** One workspace folder, [/ws]. *)
Definition oneFolder : option (list jsstring) := Some [lit "/ws"].

(** The request [{command: "echo hi", modifySomething: false}]. *)
Definition echoHiRequest : RawRequest :=
  {| raw_command := Zod.JString (lit "echo hi");
     raw_customCwd := Zod.JUndefined;
     raw_modifySomething := Zod.JBool false;
     raw_background := Zod.JUndefined;
     raw_timeout := Zod.JUndefined |}.

Definition echoHi : Params :=
  {| command := lit "echo hi"; customCwd := None; modifySomething := false;
     background := false; timeout := 300000 |}.

(** The shell prints [hi] and the command completes. *)
Definition printsHi : Env := world [] [Line (lit "hi"); Completed].

(** The human answers the prompt with the words [too risky]. *)
Definition tooRisky : Env := world (lit "too risky") [].

(** The human approves; the process prints two lines and is still running
    when the timer fires. *)
Definition stillBusy : Env :=
  world (lit "Approve") [Line (lit "one"); Line (lit "two")].

Definition wsTool : ExecuteCommandTool := newExecuteCommandTool (lit "/ws").


(** ** Further vocabulary *)

(** Starting a process. *)
Definition isRun (e : Effect) : bool :=
  match e with RunCommand _ _ => true | _ => false end.



(** The request object that spells out every field of the parameters. *)
Definition toRequest (p : Params) : RawRequest :=
  {| raw_command := Zod.JString (command p);
     raw_customCwd :=
       match customCwd p with
       | Some s => Zod.JString s
       | None => Zod.JUndefined
       end;
     raw_modifySomething := Zod.JBool (modifySomething p);
     raw_background := Zod.JBool (background p);
     raw_timeout := Zod.JNumber (timeout p) |}.

(** A field of a request is the given value, or is left out where the
    value is the default. *)
Definition givenOrDefault {A} (wrap : A -> Zod.json) (d a : A) (j : Zod.json)
  : Prop :=
  j = wrap a \/ (j = Zod.JUndefined /\ a = d).

(** A string without white space at either end. *)
Definition tight (s : jsstring) : Prop :=
  (forall c rest, s = c :: rest -> isWhiteSpace c = false)
  /\ (forall front c, s = front ++ [c] -> isWhiteSpace c = false).

(** The approval is given; the shell has no integration, prints a blank
    line, a line and another blank line, and the command completes. *)
Definition noIntegration : Env :=
  world (lit "Approve")
    [NoShellIntegration; Line []; Line (lit " built "); NoShellIntegration;
     Line []; Completed].

(** ** The extension's entry point *)

(** [packages/extension/src/extension.ts]: the status bar item and
    [activate] with its [startServer].  The calls to the editor and to the
    server are recorded in program order; what they answer, and which of
    the calls made inside a [try] block fail, is given by the host. *)
Module Extension.

Inductive Status := running | stopped | starting | tool_list_updated.

(** The part of [vscode.StatusBarItem] that the extension writes. *)
Record StatusBarItem := {
  text : jsstring;
  tooltip : option jsstring;
  command : option jsstring;
  visible : bool
}.

(** [vscode.window.createStatusBarItem]: nothing set, not shown. *)
Definition createStatusBarItem : StatusBarItem :=
  {| text := []; tooltip := None; command := None; visible := false |}.

(** [serverStatusBarItem.show()] *)
Definition show (item : StatusBarItem) : StatusBarItem :=
  {| text := text item; tooltip := tooltip item; command := command item;
     visible := true |}.

(** [updateServerStatusBar], on the variable [serverStatusBarItem]. *)
Definition updateServerStatusBar (status : Status)
  (serverStatusBarItem : option StatusBarItem) : option StatusBarItem :=
  match serverStatusBarItem with
  | None => None
  | Some item =>
      let item :=
        match status with
        | running =>
            {| text := lit "$(server) MCP Server";
               tooltip := Some (lit "MCP Server is running");
               command := Some (lit "mcpServer.stopServer");
               visible := visible item |}
        | starting =>
            {| text := lit "$(sync~spin) MCP Server";
               tooltip := Some (lit "Starting...");
               command := None;
               visible := visible item |}
        | tool_list_updated =>
            {| text := lit "$(warning) MCP Server";
               tooltip := Some (lit "Tool list updated - Restart MCP Client");
               command := Some (lit "mcpServer.stopServer");
               visible := visible item |}
        | stopped =>
            {| text := lit "$(circle-slash) MCP Server";
               tooltip := Some (lit "MCP Server is not running");
               command := Some (lit "mcpServer.toggleActiveStatus");
               visible := visible item |}
        end in
      Some (show item)
  end.

(** A [BidiHttpTransport], known by the port it was made for. *)
Record BidiHttpTransport := { port : Z }.

Inductive CommandArg := PortArg (port : Z) | FlagArg (flag : bool).

(** The calls [activate] makes, in program order. *)
Inductive Call :=
| ConsoleLog (label : jsstring)
| CreateOutputChannel (name : jsstring)
| AppendLine (line : jsstring)
| CreateMcpServer
| CreateStatusBarItem
| PushSubscription
| RegisterTextDocumentContentProvider (scheme : jsstring)
| GetCommands
| ExecuteCommand (command : jsstring) (arg : CommandArg)
| ConfigUpdate (key : jsstring) (ports : list Z)
| NewBidiHttpTransport (port : Z)
| Connect (port : Z)
| RegisterVSCodeCommands (transport : option BidiHttpTransport).

(** What the host answers.  A failure is given by the text the thrown
    value has inside a template literal. *)
Record Host := {
  (** [vscode.env.remoteName] *)
  remoteName : option jsstring;
  (** the settings [mcpServer.port] and [mcpServer.autoForwardPort] *)
  configuredPort : option Z;
  autoForwardPort : option bool;
  (** [vscode.commands.getCommands()]: a failure or the commands *)
  getCommands : jsstring + list jsstring;
  (** the failure, if any, of executing [remote-ssh.forwardPort], of
      executing [remote.autoForwardPorts], of updating the settings, of
      constructing the transport and of connecting the server to it *)
  forwardPortFailure : option jsstring;
  autoForwardPortsFailure : option jsstring;
  updateFailure : option jsstring;
  transportFailure : option jsstring;
  connectFailure : option jsstring;
  (** the statuses the transport reports through [onServerStatusChanged]
      while the server connects, and [transport.serverStatus] afterwards *)
  statusChanges : list Status;
  serverStatus : Status
}.

(** A value of the setting [remote.portsAttributes].  [activate] reads it
    as an array of ports, on the word of a cast that nothing checks; on a
    value that is not an array (the editor keeps an object there) the call
    of [includes] throws, with the text given. *)
Inductive PortsAttributes :=
| PortList (ports : list Z)
| NotAList (includesError : jsstring).

(** The module's two variables, and the setting [remote.portsAttributes]
    that [activate] reads and writes. *)
Record Vars := {
  serverStatusBarItem : option StatusBarItem;
  transport : option BidiHttpTransport;
  portsAttributes : option PortsAttributes
}.

(** Before the first activation both variables are [undefined]. *)
Definition freshVars (ports : option PortsAttributes) : Vars :=
  {| serverStatusBarItem := None; transport := None;
     portsAttributes := ports |}.

(** A computation runs on the variables, ends with a value or with a
    thrown failure, and makes calls. *)
Definition X (A : Type) : Type := Vars -> (jsstring + A) * Vars * list Call.

Definition ret {A} (a : A) : X A := fun v => (inr a, v, []).

Definition throw {A} (e : jsstring) : X A := fun v => (inl e, v, []).

Definition bind {A B} (m : X A) (k : A -> X B) : X B :=
  fun v =>
    match m v with
    | (inl e, v1, t1) => (inl e, v1, t1)
    | (inr a, v1, t1) => let '(r, v2, t2) := k a v1 in (r, v2, t1 ++ t2)
    end.

(** [try { m } catch (error) { handler error }] *)
Definition tryCatch {A} (m : X A) (handler : jsstring -> X A) : X A :=
  fun v =>
    match m v with
    | (inl e, v1, t1) =>
        let '(r, v2, t2) := handler e v1 in (r, v2, t1 ++ t2)
    | (inr a, v1, t1) => (inr a, v1, t1)
    end.

#[global] Instance X_ret : MRet X := @ret.
#[global] Instance X_bind : MBind X := fun A B k m => bind m k.

Definition call (c : Call) : X unit := fun v => (inr tt, v, [c]).

(** A call that can fail. *)
Definition attempt (c : Call) (failure : option jsstring) : X unit :=
  call c;;
  match failure with
  | Some e => throw e
  | None => mret tt
  end.

Definition outcome {A} (r : (jsstring + A) * Vars * list Call)
  : jsstring + A := r.1.1.
Definition vars {A} (r : (jsstring + A) * Vars * list Call) : Vars := r.1.2.
Definition calls {A} (r : (jsstring + A) * Vars * list Call) : list Call :=
  r.2.

(** [outputChannel.appendLine] *)
Definition appendLine (line : jsstring) : X unit := call (AppendLine line).

(** [updateServerStatusBar(status)] on the module's variable. *)
Definition setStatus (status : Status) : X unit :=
  fun v =>
    (inr tt,
     {| serverStatusBarItem :=
          updateServerStatusBar status (serverStatusBarItem v);
        transport := transport v;
        portsAttributes := portsAttributes v |},
     []).

Fixpoint setStatuses (statuses : list Status) : X unit :=
  match statuses with
  | [] => mret tt
  | status :: rest => setStatus status;; setStatuses rest
  end.

(** [vscode.env.remoteName === 'ssh-remote'] *)
Definition isRemoteSSH (host : Host) : bool :=
  bool_decide (remoteName host = Some (lit "ssh-remote")).

(** The [try] block of [startServer]: ask for the port to be forwarded
    when the command for that exists; a failure is logged, not thrown. *)
Definition setUpPortForwarding (host : Host) (port : Z) : X unit :=
  tryCatch
    (let forwardPortCommand := lit "remote-ssh.forwardPort" in
     appendLine (lit "DEBUG: Checking if command '" ++ forwardPortCommand
                 ++ lit "' is available");;
     call GetCommands;;
     commands ←
       match getCommands host with
       | inl e => throw e
       | inr commands => mret commands
       end;
     if bool_decide (forwardPortCommand ∈ commands) then
       appendLine (lit "DEBUG: Attempting to forward port "
                   ++ Number_toString port);;
       attempt (ExecuteCommand forwardPortCommand (PortArg port))
         (forwardPortFailure host);;
       appendLine (lit "DEBUG: Port " ++ Number_toString port
                   ++ lit " forwarding initiated")
     else
       appendLine (lit "WARNING: Port forwarding command not available. VSCode may automatically forward the port."))
    (fun error =>
       appendLine (lit "WARNING: Failed to set up port forwarding: "
                   ++ error)).

(** [startServer], the function [activate] defines and calls. *)
Definition startServer (host : Host) (port : Z) : X unit :=
  (if isRemoteSSH host then
     appendLine (lit "DEBUG: Detected SSH remote environment: "
                 ++ from_option (fun s => s) (lit "undefined")
                      (remoteName host));;
     setUpPortForwarding host port;;
     appendLine (lit "NOTE: VSCode typically auto-forwards ports in SSH environments. Proceeding...")
   else mret tt);;
  appendLine (lit "DEBUG: Starting MCP Server on port "
              ++ Number_toString port ++ lit "...");;
  attempt (NewBidiHttpTransport port) (transportFailure host);;
  (fun v =>
     (inr tt,
      {| serverStatusBarItem := serverStatusBarItem v;
         transport := Some {| port := port |};
         portsAttributes := portsAttributes v |},
      []));;
  call (Connect port);;
  setStatuses (statusChanges host);;
  match connectFailure host with
  | Some e => throw e
  | None => mret tt
  end;;
  setStatus (serverStatus host).

(** The [try] block of [activate] for a remote host: turn on automatic
    forwarding and list the port if it is not listed yet; a failure, that
    of [includes] on a setting that is not an array among them, is logged,
    not thrown. *)
Definition configureAutoForward (host : Host) (port : Z) : X unit :=
  tryCatch
    (attempt (ExecuteCommand (lit "remote.autoForwardPorts") (FlagArg true))
       (autoForwardPortsFailure host);;
     appendLine (lit "Automatic port forwarding enabled.");;
     portsToForward ←
       (fun v => (inr (config_get (portsAttributes v) (PortList [])), v, []));
     match portsToForward with
     | NotAList includesError => throw includesError
     | PortList portsToForward =>
         if negb (bool_decide (port ∈ portsToForward)) then
           let portsToForward := portsToForward ++ [port] in
           attempt (ConfigUpdate (lit "portsAttributes") portsToForward)
             (updateFailure host);;
           (fun v =>
              (inr tt,
               {| serverStatusBarItem := serverStatusBarItem v;
                  transport := transport v;
                  portsAttributes := Some (PortList portsToForward) |},
               []));;
           appendLine (lit "Added port " ++ Number_toString port
                       ++ lit " to auto-forward list.")
         else mret tt
     end)
    (fun error =>
       appendLine (lit "Failed to configure automatic port forwarding: "
                   ++ error)).

(** [activate].  The display name of the extension and the URI scheme of
    the diff view are constants of modules that are not among the sources:
    they are parameters. *)
Definition activate (extensionDisplayName DIFF_VIEW_URI_SCHEME : jsstring)
  (host : Host) : X unit :=
  call (ConsoleLog (lit "LMLMLM"));;
  call (CreateOutputChannel extensionDisplayName);;
  appendLine (lit "Activating " ++ extensionDisplayName ++ lit "...");;
  call CreateMcpServer;;
  call CreateStatusBarItem;;
  (fun v =>
     (inr tt,
      {| serverStatusBarItem := Some createStatusBarItem;
         transport := transport v;
         portsAttributes := portsAttributes v |},
      []));;
  call PushSubscription;;
  call (RegisterTextDocumentContentProvider DIFF_VIEW_URI_SCHEME);;
  call PushSubscription;;
  let port := config_get (configuredPort host) 60100%Z in
  let autoForwardPort := config_get (autoForwardPort host) true in
  (if isRemoteSSH host && autoForwardPort then
     appendLine (lit "SSH Remote environment detected. Setting up automatic port forwarding.");;
     configureAutoForward host port
   else mret tt);;
  tryCatch
    (startServer host port;;
     appendLine (lit "MCP Server started on port " ++ Number_toString port
                 ++ lit "."))
    (fun err => appendLine (lit "Failed to start MCP Server: " ++ err));;
  transport ← (fun v => (inr (transport v), v, []));
  call (RegisterVSCodeCommands transport);;
  appendLine (extensionDisplayName ++ lit " activated.").

End Extension.

(** ** Vocabulary of the entry point's properties *)

(** The port [activate] starts the server on. *)
Definition portOf (host : Extension.Host) : Z :=
  config_get (Extension.configuredPort host) 60100%Z.

(** A call that did not fail. *)
Definition succeeded (failure : option jsstring) : bool :=
  match failure with None => true | Some _ => false end.

(** Whether the command that forwards a port is among the editor's. *)
Definition forwardPortAvailable (host : Extension.Host) : bool :=
  match Extension.getCommands host with
  | inr commands => bool_decide (lit "remote-ssh.forwardPort" ∈ commands)
  | inl _ => false
  end.

(** The status bar item after a run of updates. *)
Definition statusBarAfter (statuses : list Extension.Status)
  (item : option Extension.StatusBarItem) : option Extension.StatusBarItem :=
  foldl (fun it status => Extension.updateServerStatusBar status it) item
    statuses.

Definition isAppendLine (c : Extension.Call) : bool :=
  match c with Extension.AppendLine _ => true | _ => false end.

(** The calls other than the lines written to the output channel. *)
Definition quiet (cs : list Extension.Call) : list Extension.Call :=
  List.filter (fun c => negb (isAppendLine c)) cs.

Definition isNewTransport (c : Extension.Call) : bool :=
  match c with Extension.NewBidiHttpTransport _ => true | _ => false end.

Definition isConnect (c : Extension.Call) : bool :=
  match c with Extension.Connect _ => true | _ => false end.

(** Asking the editor for its commands, executing one, or writing the
    settings: what setting up port forwarding consists of. *)
Definition isForwarding (c : Extension.Call) : bool :=
  match c with
  | Extension.GetCommands | Extension.ExecuteCommand _ _
  | Extension.ConfigUpdate _ _ => true
  | _ => false
  end.

Definition isForwardPort (c : Extension.Call) : bool :=
  match c with
  | Extension.ExecuteCommand _ (Extension.PortArg _) => true
  | _ => false
  end.

Definition isConfigUpdate (c : Extension.Call) : bool :=
  match c with Extension.ConfigUpdate _ _ => true | _ => false end.

(** The line of the output channel that tells how the start went. *)
Definition startOutcomeLine (host : Extension.Host) : jsstring :=
  match Extension.transportFailure host, Extension.connectFailure host with
  | Some e, _ => lit "Failed to start MCP Server: " ++ e
  | None, Some e => lit "Failed to start MCP Server: " ++ e
  | None, None =>
      lit "MCP Server started on port " ++ Number_toString (portOf host)
      ++ lit "."
  end.

(** The ports the setting lists, when it is an array. *)
Definition listedPorts (v : Extension.Vars) : option (list Z) :=
  match config_get (Extension.portsAttributes v) (Extension.PortList []) with
  | Extension.PortList ports => Some ports
  | Extension.NotAList _ => None
  end.

(** The setting is an array and the port is not in it. *)
Definition portAbsent (host : Extension.Host) (v : Extension.Vars) : bool :=
  match listedPorts v with
  | Some ports => negb (bool_decide (portOf host ∈ ports))
  | None => false
  end.

(** Whether [activate] adds its port to the list of forwarded ports. *)
Definition listsPort (host : Extension.Host) (v : Extension.Vars) : bool :=
  Extension.isRemoteSSH host
  && config_get (Extension.autoForwardPort host) true
  && succeeded (Extension.autoForwardPortsFailure host)
  && portAbsent host v
  && succeeded (Extension.updateFailure host).

(** A host reached over SSH where every call fails that can: the editor's
    commands cannot be listed, automatic forwarding cannot be turned on,
    the transport cannot be constructed. *)
Definition failingSshHost : Extension.Host :=
  {| Extension.remoteName := Some (lit "ssh-remote");
     Extension.configuredPort := None;
     Extension.autoForwardPort := None;
     Extension.getCommands := inl (lit "Error: no commands");
     Extension.forwardPortFailure := None;
     Extension.autoForwardPortsFailure := Some (lit "Error: not allowed");
     Extension.updateFailure := None;
     Extension.transportFailure := Some (lit "Error: EADDRINUSE");
     Extension.connectFailure := None;
     Extension.statusChanges := [];
     Extension.serverStatus := Extension.stopped |}.

(** A local window where everything works, the port set to 3000. *)
Definition localHost : Extension.Host :=
  {| Extension.remoteName := None;
     Extension.configuredPort := Some 3000%Z;
     Extension.autoForwardPort := None;
     Extension.getCommands := inr [];
     Extension.forwardPortFailure := None;
     Extension.autoForwardPortsFailure := None;
     Extension.updateFailure := None;
     Extension.transportFailure := None;
     Extension.connectFailure := None;
     Extension.statusChanges := [Extension.starting];
     Extension.serverStatus := Extension.running |}.

(** A host reached over SSH where everything works. *)
Definition sshHost : Extension.Host :=
  {| Extension.remoteName := Some (lit "ssh-remote");
     Extension.configuredPort := None;
     Extension.autoForwardPort := None;
     Extension.getCommands := inr [lit "remote-ssh.forwardPort"];
     Extension.forwardPortFailure := None;
     Extension.autoForwardPortsFailure := None;
     Extension.updateFailure := None;
     Extension.transportFailure := None;
     Extension.connectFailure := None;
     Extension.statusChanges := [Extension.starting];
     Extension.serverStatus := Extension.running |}.

(** * Properties *)

(** ** Strings *)

Lemma trimStart_app (s u : jsstring) :
  trimStart (s ++ u)
  = if forallb isWhiteSpace s then trimStart u else trimStart s ++ u.
Proof.
  induction s as [|c s IH]; simpl; [reflexivity|].
  destruct (isWhiteSpace c); simpl; [exact IH | reflexivity].
Qed.

Lemma trimStart_all_white (s : jsstring) :
  forallb isWhiteSpace s = true -> trimStart s = [].
Proof.
  induction s as [|c s IH]; simpl; [reflexivity|].
  destruct (isWhiteSpace c); simpl; [exact IH | discriminate].
Qed.

Lemma trim_snoc_white (s : jsstring) (c : N) :
  isWhiteSpace c = true -> trim (s ++ [c]) = trim s.
Proof.
  intros Hc. unfold trim, trimEnd. rewrite trimStart_app.
  destruct (forallb isWhiteSpace s) eqn:Hs.
  - rewrite (trimStart_all_white s Hs). simpl. rewrite Hc. reflexivity.
  - rewrite rev_app_distr. simpl. rewrite Hc. reflexivity.
Qed.

Lemma buffer_join (lines : list jsstring) :
  lines <> [] ->
  foldl (fun acc line => acc ++ line ++ nl) [] lines = join nl lines ++ nl.
Proof.
  assert (G : forall (ls : list jsstring) acc,
             foldl (fun acc line => acc ++ line ++ nl) acc ls
             = acc ++ foldl (fun acc line => acc ++ line ++ nl) [] ls).
  { induction ls as [|l ls IH]; intros acc; simpl.
    - now rewrite app_nil_r.
    - rewrite IH. rewrite (IH (l ++ nl)). now rewrite <- !app_assoc. }
  induction lines as [|l ls IH]; [congruence|]. intros _.
  simpl foldl. rewrite G. destruct ls as [|l' ls].
  - simpl. now rewrite app_nil_r.
  - rewrite IH by discriminate.
    change (join nl (l :: l' :: ls)) with (l ++ nl ++ join nl (l' :: ls)).
    now rewrite <- !app_assoc.
Qed.

Lemma trim_buffer (lines : list jsstring) :
  trim (foldl (fun acc line => acc ++ line ++ nl) [] lines)
  = trim (join nl lines).
Proof.
  destruct lines as [|l ls]; [reflexivity|].
  rewrite buffer_join by discriminate.
  apply trim_snoc_white. reflexivity.
Qed.

(** ** The monad, the pool and the listeners *)

Ltac unfold_M :=
  unfold mbind, M_bind, bind, mret, M_ret, ret, emit, value, store, trace
    in *;
  simpl in *.

Lemma linesOf_app (a b : list ProcessEvent) :
  linesOf (a ++ b) = linesOf a ++ linesOf b.
Proof.
  induction a as [|[l| |] a IH]; simpl; [reflexivity| |exact IH|exact IH].
  now rewrite IH.
Qed.

Lemma hasCompleted_app (a b : list ProcessEvent) :
  hasCompleted (a ++ b) = hasCompleted a || hasCompleted b.
Proof.
  induction a as [|[l| |] a IH]; simpl; auto.
Qed.

Lemma getOrCreateTerminal_trace (dir : jsstring) (st : Store) :
  trace (getOrCreateTerminal dir st)
  = [AcquireTerminal dir (id (value (getOrCreateTerminal dir st)))].
Proof.
  unfold getOrCreateTerminal, createTerminal, trace, value.
  destruct (pool st !! dir) as [t|]; [destruct (live t)|]; reflexivity.
Qed.

Lemma deliver_spec (evs : list ProcessEvent) (ls : Listeners) (st : Store) :
  store (deliver evs ls st) = st
  /\ result (value (deliver evs ls st))
     = foldl (fun acc line => acc ++ line ++ nl) (result ls) (linesOf evs)
  /\ completed (value (deliver evs ls st)) = completed ls || hasCompleted evs
  /\ forallb isWarning (trace (deliver evs ls st)) = true.
Proof.
  revert ls. induction evs as [|ev evs IH]; intros ls.
  - unfold_M. now rewrite orb_false_r.
  - destruct ev as [l| |]; simpl deliver.
    + specialize (IH {| result := result ls ++ l ++ nl;
                        completed := completed ls; warned := warned ls |}).
      unfold_M. destruct (deliver evs _ st) as [[ls' st'] tr']. exact IH.
    + specialize (IH {| result := result ls; completed := true;
                        warned := warned ls |}).
      unfold_M. destruct (deliver evs _ st) as [[ls' st'] tr'].
      rewrite orb_true_r. exact IH.
    + destruct (warned ls) eqn:W.
      * specialize (IH ls). unfold_M.
        destruct (deliver evs _ st) as [[ls' st'] tr']. exact IH.
      * specialize (IH {| result := result ls; completed := completed ls;
                          warned := true |}).
        unfold_M.
        destruct (deliver evs _ st) as [[ls' st'] tr']. exact IH.
Qed.

Lemma atRead_result (env : Env) (st : Store) :
  result (atRead env st)
  = foldl (fun acc line => acc ++ line ++ nl) [] (linesOf (delivered env)).
Proof.
  unfold atRead, delivered.
  destruct (deliver_spec (duringRace env) noEvents st) as (_ & R1 & _).
  destruct (deliver_spec (duringDelay env)
              (value (deliver (duringRace env) noEvents st)) st)
    as (_ & R2 & _).
  rewrite R2, R1, linesOf_app, foldl_app. reflexivity.
Qed.

Lemma atRead_completed (env : Env) (st : Store) :
  completed (atRead env st) = hasCompleted (delivered env).
Proof.
  unfold atRead, delivered.
  destruct (deliver_spec (duringRace env) noEvents st) as (_ & _ & C1 & _).
  destruct (deliver_spec (duringDelay env)
              (value (deliver (duringRace env) noEvents st)) st)
    as (_ & _ & C2 & _).
  rewrite C2, C1, hasCompleted_app. reflexivity.
Qed.

(** ** The two ways through [execute] *)

Section Execute.

Variables (env : Env) (this : ExecuteCommandTool) (cmd : jsstring)
  (dir : option jsstring) (modify bg : bool) (ms : Z) (st : Store).

(** The call as the handler makes it, every argument given. *)
Let call := execute env this cmd dir (Some modify) (Some bg) (Some ms) st.

(** The session the call acquires when it gets that far. *)
Let session := getOrCreateTerminal (orElse dir (cwd this)) st.

(** Stopped at the gate: one prompt, the pool untouched. *)
Lemma execute_denied :
  proceeds env modify = false ->
  call = ((false, formatResponse.toolResult (deniedText (userResponse env))),
          st,
          [Confirm (lit "Execute Command?") cmd (lit "Execute Command")
             (lit "Deny")]).
Proof.
  unfold proceeds, shouldConfirm, call, execute, ask. cbn [from_option].
  intros H. apply orb_false_elim in H as [H1 H2].
  apply negb_false_iff in H1. rewrite H1.
  apply bool_decide_eq_false in H2.
  unfold_M. rewrite bool_decide_eq_true_2 by exact H2. reflexivity.
Qed.

(** Past the gate: the session is acquired and the process started; in
    background mode that is all, otherwise the race and the delay follow
    and the listeners' variables are read. *)
Lemma execute_proceeds :
  proceeds env modify = true ->
  call =
    ((false,
      formatResponse.toolResult
        (if bg then backgroundText (id (value session))
         else if completed (atRead env (store session))
              then completedText (id (value session))
                     (trim (result (atRead env (store session))))
              else stillRunningText (id (value session)) ms
                     (trim (result (atRead env (store session)))))),
     store session,
     gateTrace env cmd modify
     ++ startTrace (orElse dir (cwd this)) (id (value session)) cmd
     ++ (if bg then [] else waitTrace env ms (store session))).
Proof.
  unfold proceeds, call, execute, ask, gateTrace, waitTrace, atRead, session,
    shouldConfirm.
  cbn [from_option]. intros H.
  pose proof (getOrCreateTerminal_trace (orElse dir (cwd this)) st) as HT.
  destruct (getOrCreateTerminal (orElse dir (cwd this)) st)
    as [[t st1] tr1] eqn:HG.
  unfold trace, value in HT. simpl in HT. subst tr1.
  assert (HD1 := deliver_spec (duringRace env) noEvents st1).
  destruct (deliver (duringRace env) noEvents st1) as [[l1 s1] w1] eqn:E1.
  destruct HD1 as (S1 & _). unfold store in S1. simpl in S1. subst s1.
  assert (HD2 := deliver_spec (duringDelay env) l1 st1).
  destruct (modify || config_get (confirmNonDestructiveCommands env) false)
    eqn:HS; simpl in H.
  - apply bool_decide_eq_true in H.
    unfold_M. rewrite bool_decide_eq_false_2 by (intros C; exact (C H)).
    rewrite HG. destruct bg; [reflexivity|].
    rewrite E1. simpl.
    destruct (deliver (duringDelay env) l1 st1) as [[l2 s2] w2] eqn:E2.
    destruct HD2 as (S2 & _). simpl in S2. subst s2.
    simpl. destruct (completed l2); simpl; rewrite app_nil_r; reflexivity.
  - unfold_M. rewrite HG. destruct bg; [reflexivity|].
    rewrite E1. simpl.
    destruct (deliver (duringDelay env) l1 st1) as [[l2 s2] w2] eqn:E2.
    destruct HD2 as (S2 & _). simpl in S2. subst s2.
    simpl. destruct (completed l2); simpl; rewrite app_nil_r; reflexivity.
Qed.

End Execute.

(** Arguments left [undefined] behave as their default values. *)
Lemma execute_defaults (env : Env) (this : ExecuteCommandTool)
  (cmd : jsstring) (dir : option jsstring) (m b : option bool)
  (t : option Z) :
  execute env this cmd dir m b t
  = execute env this cmd dir (Some (from_option (fun x => x) true m))
      (Some (from_option (fun x => x) false b))
      (Some (from_option (fun x => x) 300000%Z t)).
Proof. reflexivity. Qed.

(** ** Reading traces *)

Lemma warnings_filtered (p : Effect -> bool) (w : list Effect) :
  (forall e, isWarning e = true -> p e = false) ->
  forallb isWarning w = true -> List.filter p w = [].
Proof.
  intros Hp. induction w as [|e w IH]; simpl; [reflexivity|].
  intros H. apply andb_true_iff in H as [He Hw].
  rewrite (Hp e He). exact (IH Hw).
Qed.

Lemma warnings_acquire_nothing (w : list Effect) :
  forallb isWarning w = true -> acquired w = [].
Proof.
  induction w as [|e w IH]; simpl; [reflexivity|].
  intros H. apply andb_true_iff in H as [He Hw].
  destruct e; try discriminate He. exact (IH Hw).
Qed.

Lemma acquired_app (a b : list Effect) :
  acquired (a ++ b) = acquired a ++ acquired b.
Proof.
  induction a as [|e a IH]; simpl; [reflexivity|].
  destruct e; simpl; rewrite ?IH; reflexivity.
Qed.

Lemma waitTrace_shape (env : Env) (ms : Z) (st : Store) :
  exists w1 w2,
    waitTrace env ms st = [SetTimeout ms; AwaitRace] ++ w1 ++ [Delay 50] ++ w2
    /\ forallb isWarning w1 = true /\ forallb isWarning w2 = true.
Proof.
  unfold waitTrace.
  destruct (deliver_spec (duringRace env) noEvents st) as (_ & _ & _ & W1).
  destruct (deliver_spec (duringDelay env)
              (value (deliver (duringRace env) noEvents st)) st)
    as (_ & _ & _ & W2).
  eauto.
Qed.

Lemma waitTrace_prompts (env : Env) (ms : Z) (st : Store) :
  List.filter isConfirm (waitTrace env ms st) = [].
Proof.
  destruct (waitTrace_shape env ms st) as (w1 & w2 & -> & W1 & W2).
  simpl. rewrite List.filter_app. simpl.
  rewrite !(warnings_filtered isConfirm) by (auto; now intros []).
  reflexivity.
Qed.

Lemma waitTrace_acquired (env : Env) (ms : Z) (st : Store) :
  acquired (waitTrace env ms st) = [].
Proof.
  destruct (waitTrace_shape env ms st) as (w1 & w2 & -> & W1 & W2).
  simpl. rewrite acquired_app. simpl.
  now rewrite !warnings_acquire_nothing.
Qed.

Lemma gateTrace_acquired (env : Env) (cmd : jsstring) (modify : bool) :
  acquired (gateTrace env cmd modify) = [].
Proof. unfold gateTrace. now destruct (shouldConfirm env modify). Qed.

(** A call that gets past the gate acquires exactly one session, the one
    of its effective working directory. *)
Lemma execute_acquires (env : Env) (this : ExecuteCommandTool)
  (cmd : jsstring) (dir : option jsstring) (modify bg : bool) (ms : Z)
  (st : Store) :
  proceeds env modify = true ->
  acquired
    (trace (execute env this cmd dir (Some modify) (Some bg) (Some ms) st))
  = [(orElse dir (cwd this),
      id (value (getOrCreateTerminal (orElse dir (cwd this)) st)))].
Proof.
  intros H. rewrite execute_proceeds by exact H. unfold trace at 1. simpl.
  rewrite !acquired_app, gateTrace_acquired. simpl.
  destruct bg; [reflexivity|]. now rewrite waitTrace_acquired.
Qed.

(** ** The rejection flag *)

(** C2.  Whatever the request and whatever happens (denial, background
    return, completion, timeout), the first component of the pair that
    [execute] returns, the rejection boolean, is [false]. *)
Theorem execute_rejection_flag_false (env : Env) (this : ExecuteCommandTool)
  (cmd : jsstring) (dir : option jsstring) (m b : option bool)
  (t : option Z) (st : Store) :
  (value (execute env this cmd dir m b t st)).1 = false.
Proof.
  rewrite execute_defaults.
  destruct (proceeds env (from_option (fun x => x) true m)) eqn:P.
  - now rewrite execute_proceeds.
  - now rewrite execute_denied.
Qed.

(** ** The confirmation gate *)

(** C3.  The prompts a call shows are exactly one prompt when the modify
    flag or the [confirmNonDestructiveCommands] setting is true, and none
    otherwise.  So a call with [modifySomething = true] always prompts,
    whatever the setting, and a call with [modifySomething = false] under a
    disabled setting never does. *)
Theorem confirmation_iff_modify_or_setting (env : Env)
  (this : ExecuteCommandTool) (cmd : jsstring) (dir : option jsstring)
  (modify bg : bool) (ms : Z) (st : Store) :
  let prompts (flag : bool) :=
    List.filter isConfirm
      (trace (execute env this cmd dir (Some flag) (Some bg) (Some ms) st)) in
  prompts modify
  = (if modify || config_get (confirmNonDestructiveCommands env) false
     then [Confirm (lit "Execute Command?") cmd (lit "Execute Command")
             (lit "Deny")]
     else [])
  /\ prompts true
     = [Confirm (lit "Execute Command?") cmd (lit "Execute Command")
          (lit "Deny")]
  /\ (config_get (confirmNonDestructiveCommands env) false = false ->
      prompts false = []).
Proof.
  assert (G : forall flag,
             List.filter isConfirm
               (trace (execute env this cmd dir (Some flag) (Some bg)
                         (Some ms) st))
             = if shouldConfirm env flag
               then [Confirm (lit "Execute Command?") cmd
                       (lit "Execute Command") (lit "Deny")]
               else []).
  { intros flag. destruct (proceeds env flag) eqn:P.
    - rewrite execute_proceeds by exact P. unfold trace at 1. cbn [snd].
      rewrite !List.filter_app. unfold gateTrace.
      assert (W : List.filter isConfirm
                    (if bg then []
                     else waitTrace env ms
                            (store (getOrCreateTerminal
                                      (orElse dir (cwd this)) st)))
                  = []).
      { destruct bg; [reflexivity | apply waitTrace_prompts]. }
      rewrite W. now destruct (shouldConfirm env flag).
    - rewrite execute_denied by exact P. unfold proceeds in P.
      apply orb_false_elim in P as [P _]. apply negb_false_iff in P.
      now rewrite P. }
  cbv beta zeta. rewrite !G. unfold shouldConfirm. simpl.
  repeat split; try reflexivity. now intros ->.
Qed.

(** C5.  When confirmation is requested and the decision is anything but
    [Approve], [execute] stops there: the pool is as it was, the prompt is
    the only effect (no session acquired or shown, no process started or
    listened to), the outcome is a denial text, and a decision other than
    the plain [Deny] is embedded in it verbatim. *)
Theorem denial_aborts_before_session (env : Env) (this : ExecuteCommandTool)
  (cmd : jsstring) (dir : option jsstring) (modify bg : bool) (ms : Z)
  (st : Store) :
  shouldConfirm env modify = true ->
  userResponse env <> lit "Approve" ->
  let r := execute env this cmd dir (Some modify) (Some bg) (Some ms) st in
  store r = st
  /\ trace r
     = [Confirm (lit "Execute Command?") cmd (lit "Execute Command")
          (lit "Deny")]
  /\ List.filter touchesTerminal (trace r) = []
  /\ startsWith (theText (value r))
       (lit "Command execution was denied by the user. ")
  /\ (userResponse env <> lit "Deny" ->
      theText (value r)
      = lit "Command execution was denied by the user. "
        ++ lit "Feedback: " ++ userResponse env)
  /\ (userResponse env = lit "Deny" ->
      theText (value r) = lit "Command execution was denied by the user. ").
Proof.
  intros HS HA r.
  assert (P : proceeds env modify = false).
  { unfold proceeds. rewrite HS. now rewrite bool_decide_eq_false_2. }
  subst r. rewrite execute_denied by exact P.
  unfold store, trace, value, theText, deniedText. simpl.
  repeat split.
  - eexists. reflexivity.
  - intros HD. now rewrite bool_decide_eq_true_2.
  - intros HD. now rewrite bool_decide_eq_false_2 by (intros C; exact (C HD)).
Qed.

(** ** Background mode *)

(** C4.  A call with [background = true] that gets past the gate does the
    gate's work, acquires the session, starts the process and registers the
    listeners, and returns: no timer is set, no race and no delay awaited.
    The text it returns is the sentence that the command started in
    background mode, with the session's identifier, followed by the
    sentence that tells the caller to check the output later with the
    [get_terminal_output] tool and this terminal id. *)
Theorem background_returns_before_race (env : Env)
  (this : ExecuteCommandTool) (cmd : jsstring) (dir : option jsstring)
  (modify : bool) (ms : Z) (st : Store) :
  proceeds env modify = true ->
  let r := execute env this cmd dir (Some modify) (Some true) (Some ms) st in
  let wd := orElse dir (cwd this) in
  let i := id (value (getOrCreateTerminal wd st)) in
  trace r = gateTrace env cmd modify ++ startTrace wd i cmd
  /\ List.filter isWaiting (trace r) = []
  /\ In (RunCommand i cmd) (trace r)
  /\ theText (value r)
     = lit "Command started in background mode and is running in the terminal (id: "
       ++ Number_toString (Z.of_N i) ++ lit "). "
       ++ lit "You can check the output later using the get_terminal_output tool with this terminal id."
  /\ includes (theText (value r)) (Number_toString (Z.of_N i))
  /\ includes (theText (value r))
       (lit "You can check the output later using the get_terminal_output tool with this terminal id.").
Proof.
  intros P r wd i. subst r. rewrite execute_proceeds by exact P.
  fold wd. fold i. unfold trace, value, theText, backgroundText.
  cbn [fst snd text formatResponse.toolResult]. rewrite app_nil_r.
  split; [reflexivity|]. split; [|split; [|split; [|split]]].
  - rewrite List.filter_app. unfold gateTrace.
    now destruct (shouldConfirm env modify).
  - apply in_or_app. right. unfold startTrace. simpl. auto.
  - reflexivity.
  - eexists _, _. reflexivity.
  - exists (lit "Command started in background mode and is running in the terminal (id: "
            ++ Number_toString (Z.of_N i) ++ lit "). "), [].
    rewrite <- !app_assoc, app_nil_r. reflexivity.
Qed.

(** ** Completion and timeout *)

(** C6.  When the call runs in the foreground and the command completes,
    having delivered the lines [L1..Ln], the text is the sentence naming
    the terminal followed, when the trimmed output is not empty, by an
    output section that holds [L1..Ln] joined by line feeds and trimmed:
    every line once, in the order delivered.  When the trimmed output is
    empty there is no output section. *)
Theorem completed_output_is_joined_lines (env : Env)
  (this : ExecuteCommandTool) (cmd : jsstring) (dir : option jsstring)
  (modify : bool) (ms : Z) (st : Store) :
  proceeds env modify = true ->
  hasCompleted (delivered env) = true ->
  let r := execute env this cmd dir (Some modify) (Some false) (Some ms) st in
  let i := id (value (getOrCreateTerminal (orElse dir (cwd this)) st)) in
  let out := trim (join nl (linesOf (delivered env))) in
  let sentence :=
    lit "Command executed in terminal (id: " ++ Number_toString (Z.of_N i)
    ++ lit ")." in
  (out = [] -> theText (value r) = sentence)
  /\ (out <> [] ->
      theText (value r) = sentence ++ nl ++ lit "Output:" ++ nl ++ out).
Proof.
  intros P C r i out sentence. subst r.
  rewrite execute_proceeds by exact P. fold i.
  unfold value at 1, theText. cbn [fst snd text formatResponse.toolResult].
  rewrite atRead_completed, C, atRead_result, trim_buffer. fold out.
  unfold completedText, sentence. split; intros H.
  - rewrite H. simpl truthy. cbv iota. now rewrite !app_nil_r.
  - destruct out as [|c out']; [congruence|]. simpl truthy. cbv iota.
    now rewrite <- !app_assoc.
Qed.

(** The flag is read after the delay: a [completed] event that arrives
    during the 50 ms that follow the race still makes the call report the
    command as executed. *)
Lemma completion_during_delay_counts (env : Env) (this : ExecuteCommandTool)
  (cmd : jsstring) (dir : option jsstring) (modify : bool) (ms : Z)
  (st : Store) :
  proceeds env modify = true ->
  hasCompleted (duringDelay env) = true ->
  startsWith
    (theText
       (value (execute env this cmd dir (Some modify) (Some false) (Some ms)
                 st)))
    (lit "Command executed in terminal (id: ").
Proof.
  intros P C. rewrite execute_proceeds by exact P.
  unfold value at 1, theText. cbn [fst snd text formatResponse.toolResult].
  rewrite atRead_completed. unfold delivered.
  rewrite hasCompleted_app, C, orb_true_r. unfold completedText.
  eexists. reflexivity.
Qed.





(** ** Sessions *)

Lemma getOrCreateTerminal_again (d : jsstring) (st : Store) :
  getOrCreateTerminal d (store (getOrCreateTerminal d st))
  = (value (getOrCreateTerminal d st), store (getOrCreateTerminal d st),
     [AcquireTerminal d (id (value (getOrCreateTerminal d st)))]).
Proof.
  unfold getOrCreateTerminal, createTerminal, store, value.
  destruct (pool st !! d) as [t|] eqn:L; [destruct (live t) eqn:A|]; simpl.
  - now rewrite L, A.
  - now rewrite lookup_insert_eq.
  - now rewrite lookup_insert_eq.
Qed.

(** The session handed out is bound to the directory asked for, and is
    live. *)
Lemma getOrCreateTerminal_bound (d : jsstring) (st : Store) :
  (forall k t, pool st !! k = Some t -> workingDirectory t = k) ->
  workingDirectory (value (getOrCreateTerminal d st)) = d
  /\ live (value (getOrCreateTerminal d st)) = true.
Proof.
  intros Inv. unfold getOrCreateTerminal, createTerminal, value.
  destruct (pool st !! d) as [t|] eqn:L; [destruct (live t) eqn:A|]; simpl;
    auto.
Qed.

(** Once its shell has been closed from outside, a session is not handed
    out again: the next acquisition makes a new one. *)
Lemma getOrCreateTerminal_after_close (d : jsstring) (st : Store) :
  id (value (getOrCreateTerminal d
               (closeExternally d (store (getOrCreateTerminal d st)))))
  = nextTerminalId (store (getOrCreateTerminal d st)).
Proof.
  unfold closeExternally.
  assert (L : exists t, pool (store (getOrCreateTerminal d st)) !! d = Some t).
  { unfold getOrCreateTerminal, createTerminal, store.
    destruct (pool st !! d) as [t|] eqn:L; [destruct (live t)|]; simpl;
      rewrite ?lookup_insert_eq; eauto. }
  destruct L as [t L]. rewrite L.
  unfold getOrCreateTerminal at 1, createTerminal. simpl.
  now rewrite lookup_insert_eq.
Qed.

(** C8.  Acquiring a session a second time for the same working directory
    hands out the same session and leaves the pool as it is; so two
    successive calls of [execute] that get past the gate with the same
    effective working directory run in the session of one identifier. *)
Theorem acquire_twice_same_session (d : jsstring) (st : Store) :
  let first := getOrCreateTerminal d st in
  let second := getOrCreateTerminal d (store first) in
  id (value second) = id (value first)
  /\ store second = store first
  /\ forall env1 env2 this1 this2 cmd1 cmd2 dir1 dir2 m1 m2 b1 b2 t1 t2,
       proceeds env1 m1 = true ->
       proceeds env2 m2 = true ->
       orElse dir1 (cwd this1) = d ->
       orElse dir2 (cwd this2) = d ->
       let r1 :=
         execute env1 this1 cmd1 dir1 (Some m1) (Some b1) (Some t1) st in
       let r2 :=
         execute env2 this2 cmd2 dir2 (Some m2) (Some b2) (Some t2)
           (store r1) in
       acquired (trace r1) = [(d, id (value first))]
       /\ acquired (trace r2) = [(d, id (value first))].
Proof.
  intros first second. subst second first.
  rewrite getOrCreateTerminal_again. split; [reflexivity|].
  split; [reflexivity|].
  intros env1 env2 this1 this2 cmd1 cmd2 dir1 dir2 m1 m2 b1 b2 t1 t2
    P1 P2 D1 D2 r1 r2.
  subst r2. rewrite (execute_acquires env2) by exact P2.
  subst r1. rewrite (execute_acquires env1) by exact P1.
  rewrite D1, D2. split; [reflexivity|].
  rewrite (execute_proceeds env1) by exact P1.
  unfold store at 1. cbn [fst snd]. rewrite D1.
  now rewrite getOrCreateTerminal_again.
Qed.

(** ** Defaults *)

(** C9.  A request that gives only [command] is accepted, with
    [modifySomething = true], [background = false] and
    [timeout = 300000]; in any accepted request each of the three fields,
    when omitted, takes that default; a request whose [command] is not a
    string is refused; and [execute] called without the three arguments
    behaves as with the defaults. *)
Theorem omitted_fields_take_defaults :
  (forall c : jsstring,
     executeCommandSchema
       {| raw_command := Zod.JString c; raw_customCwd := Zod.JUndefined;
          raw_modifySomething := Zod.JUndefined;
          raw_background := Zod.JUndefined;
          raw_timeout := Zod.JUndefined |}
     = Some {| command := c; customCwd := None; modifySomething := true;
               background := false; timeout := 300000 |})
  /\ (forall r p,
        executeCommandSchema r = Some p ->
        raw_command r = Zod.JString (command p)
        /\ (raw_modifySomething r = Zod.JUndefined ->
            modifySomething p = true)
        /\ (raw_background r = Zod.JUndefined -> background p = false)
        /\ (raw_timeout r = Zod.JUndefined -> timeout p = 300000%Z))
  /\ (forall r,
        Zod.string (raw_command r) = None -> executeCommandSchema r = None)
  /\ (forall env this cmd dir,
        execute env this cmd dir None None None
        = execute env this cmd dir (Some true) (Some false)
            (Some 300000%Z)).
Proof.
  split; [reflexivity|]. split; [|split; [|reflexivity]].
  - intros [rc rd rm rb rt] p. unfold executeCommandSchema. simpl.
    destruct rc; simpl; try discriminate.
    destruct (Zod.optional Zod.string rd); try discriminate.
    destruct (Zod.default (Zod.optional Zod.boolean) true rm) eqn:Hm;
      try discriminate.
    destruct (Zod.default (Zod.optional Zod.boolean) false rb) eqn:Hb;
      try discriminate.
    destruct (Zod.default (Zod.optional Zod.number) 300000%Z rt) eqn:Ht;
      try discriminate.
    intros [= <-]. simpl. split; [reflexivity|].
    repeat split; intros ->; simpl in *; congruence.
  - intros r H. unfold executeCommandSchema. now rewrite H.
Qed.

(** ** The working directory *)

(** C10.  A [customCwd] that is the empty string counts for nothing: the
    call is the same as one without [customCwd], and the session is
    acquired for the tool's workspace root.  A [customCwd] that is not
    empty is the directory the session is acquired for. *)
Theorem empty_customCwd_uses_root (env : Env) (this : ExecuteCommandTool)
  (cmd : jsstring) (st : Store) :
  (forall m b t,
     execute env this cmd (Some []) m b t st
     = execute env this cmd None m b t st)
  /\ (forall modify bg ms,
        proceeds env modify = true ->
        acquired
          (trace (execute env this cmd (Some []) (Some modify) (Some bg)
                    (Some ms) st))
        = [(cwd this,
            id (value (getOrCreateTerminal (cwd this) st)))])
  /\ (forall d modify bg ms,
        d <> [] ->
        proceeds env modify = true ->
        acquired
          (trace (execute env this cmd (Some d) (Some modify) (Some bg)
                    (Some ms) st))
        = [(d, id (value (getOrCreateTerminal d st)))]).
Proof.
  split; [reflexivity|]. split.
  - intros modify bg ms P. now rewrite execute_acquires.
  - intros d modify bg ms Hd P. rewrite execute_acquires by exact P.
    destruct d; [congruence | reflexivity].
Qed.

(** ** The handler *)

(** Without a workspace root the handler answers with an error and does
    nothing else. *)
Lemma handler_without_root (folders : option (list jsstring)) (env : Env)
  (params : Params) (st : Store) :
  resolvable (firstFolder folders) = false ->
  executeCommandToolHandler folders env params st
  = ({| isError := true; content := [lit "No workspace folder is open"] |},
     st, []).
Proof.
  unfold executeCommandToolHandler, resolvable.
  destruct (firstFolder folders) as [root|]; [|reflexivity].
  now intros ->.
Qed.

(** With a workspace root the handler negates the first component of what
    [execute] returns, which is the rejection flag and is never set: every
    answer is flagged as an error. *)
Lemma handler_always_flags_error (folders : option (list jsstring))
  (env : Env) (params : Params) (st : Store) :
  isError (value (executeCommandToolHandler folders env params st)) = true.
Proof.
  unfold executeCommandToolHandler.
  destruct (firstFolder folders) as [root|]; [|reflexivity].
  destruct (truthy root); [|reflexivity].
  destruct (proceeds env (modifySomething params)) eqn:P; unfold_M.
  - now rewrite execute_proceeds.
  - now rewrite execute_denied.
Qed.

(** C1.  The request [{command: "echo hi", modifySomething: false}], with
    a workspace folder open and the override off, the command printing
    [hi] and completing: no prompt is shown, the text holds [hi], and the
    response has [isError = true]. *)
Theorem echo_hi_flagged_as_error :
  executeCommandSchema echoHiRequest = Some echoHi
  /\ resolvable (firstFolder oneFolder) = true
  /\ let r := executeCommandToolHandler oneFolder printsHi echoHi emptyStore in
     List.filter isConfirm (trace r) = []
     /\ content (value r)
        = [lit "Command executed in terminal (id: 1)." ++ nl
           ++ lit "Output:" ++ nl ++ lit "hi"]
     /\ isError (value r) = true.
Proof. vm_compute. repeat split. Qed.

(** ** The properties at work *)

(** [echo hi] with [modifySomething = false] and the override unset: no
    prompt. *)
Lemma read_only_command_not_prompted :
  List.filter isConfirm
    (trace (execute printsHi wsTool (lit "echo hi") None (Some false)
              (Some false) (Some 300000%Z) emptyStore))
  = [].
Proof.
  apply (confirmation_iff_modify_or_setting printsHi wsTool (lit "echo hi")
           None false false 300000 emptyStore).
  reflexivity.
Defined.

(** [sleep 600] in the background, approved: nothing is awaited, and
    the text is the two sentences with the terminal 1. *)
Lemma sleep_in_background_does_not_wait :
  List.filter isWaiting
    (trace (execute stillBusy wsTool (lit "sleep 600") None (Some true)
              (Some true) (Some 300000%Z) emptyStore))
  = []
  /\ In (RunCommand 1 (lit "sleep 600"))
       (trace (execute stillBusy wsTool (lit "sleep 600") None (Some true)
                 (Some true) (Some 300000%Z) emptyStore))
  /\ theText
       (value (execute stillBusy wsTool (lit "sleep 600") None (Some true)
                 (Some true) (Some 300000%Z) emptyStore))
     = lit "Command started in background mode and is running in the terminal (id: "
       ++ lit "1" ++ lit "). "
       ++ lit "You can check the output later using the get_terminal_output tool with this terminal id.".
Proof.
  destruct (background_returns_before_race stillBusy wsTool (lit "sleep 600")
              None true 300000 emptyStore) as (_ & H1 & H2 & H3 & _).
  - reflexivity.
  - split; [exact H1 | split; [exact H2 | exact H3]].
Defined.

(** [rm -rf tmp] answered with [too risky]: the words are in the text. *)
Lemma too_risky_is_embedded :
  theText (value (execute tooRisky wsTool (lit "rm -rf tmp") None (Some true)
                    (Some false) (Some 300000%Z) emptyStore))
  = lit "Command execution was denied by the user. " ++ lit "Feedback: "
    ++ lit "too risky".
Proof.
  destruct (denial_aborts_before_session tooRisky wsTool (lit "rm -rf tmp")
              None true false 300000 emptyStore) as (_ & _ & _ & _ & H & _).
  - reflexivity.
  - discriminate.
  - apply H. discriminate.
Defined.

(** [echo hi] completing after one line: the output section is [hi]. *)
Lemma echo_hi_output_section :
  theText (value (execute printsHi wsTool (lit "echo hi") None (Some false)
                    (Some false) (Some 300000%Z) emptyStore))
  = lit "Command executed in terminal (id: 1)." ++ nl ++ lit "Output:" ++ nl
    ++ lit "hi".
Proof.
  destruct (completed_output_is_joined_lines printsHi wsTool (lit "echo hi")
              None false 300000 emptyStore) as (_ & H).
  - reflexivity.
  - reflexivity.
  - apply H. discriminate.
Defined.


(** Two calls in [/ws], one after the other: the same terminal. *)
Lemma two_calls_one_terminal :
  acquired
    (trace (execute printsHi wsTool (lit "echo hi") None (Some false)
              (Some false) (Some 300000%Z) emptyStore))
  = [(lit "/ws", 1)]
  /\ acquired
       (trace (execute stillBusy wsTool (lit "make") (Some (lit "/ws"))
                 (Some true) (Some false) (Some 5%Z)
                 (store (execute printsHi wsTool (lit "echo hi") None
                           (Some false) (Some false) (Some 300000%Z)
                           emptyStore))))
     = [(lit "/ws", 1)].
Proof.
  destruct (acquire_twice_same_session (lit "/ws") emptyStore)
    as (_ & _ & H).
  apply (H printsHi stillBusy wsTool wsTool (lit "echo hi") (lit "make") None
           (Some (lit "/ws")) false true false false 300000%Z 5%Z);
    reflexivity.
Defined.

(** [{command: "echo hi", modifySomething: false}] is accepted, with the
    defaults for background and timeout. *)
Lemma echo_hi_request_defaults :
  background <$> executeCommandSchema echoHiRequest = Some false
  /\ timeout <$> executeCommandSchema echoHiRequest = Some 300000%Z.
Proof.
  destruct omitted_fields_take_defaults as (_ & H & _).
  assert (E : executeCommandSchema echoHiRequest = Some echoHi)
    by reflexivity.
  destruct (H echoHiRequest echoHi E) as (_ & _ & Hb & Ht).
  rewrite E.
  change (Some (background echoHi) = Some false
          /\ Some (timeout echoHi) = Some 300000%Z).
  rewrite Hb, Ht by reflexivity. split; reflexivity.
Defined.

(** An empty [customCwd] in the tool of [/ws]: the session is for [/ws]. *)
Lemma empty_customCwd_in_ws :
  acquired
    (trace (execute printsHi wsTool (lit "echo hi") (Some []) (Some false)
              (Some false) (Some 300000%Z) emptyStore))
  = [(lit "/ws", 1)].
Proof.
  destruct (empty_customCwd_uses_root printsHi wsTool (lit "echo hi")
              emptyStore) as (_ & H & _).
  apply (H false false 300000%Z). reflexivity.
Defined.

(** * Further properties of the tool *)

(** ** Trimming *)

Lemma trimStart_split (s : jsstring) :
  exists pre,
    s = pre ++ trimStart s
    /\ forallb isWhiteSpace pre = true
    /\ (forall c rest, trimStart s = c :: rest -> isWhiteSpace c = false).
Proof.
  induction s as [|a s (pre & E & W & H)]; simpl.
  - exists []. repeat split. discriminate.
  - destruct (isWhiteSpace a) eqn:A.
    + exists (a :: pre). simpl. rewrite A, W. repeat split; [congruence|].
      exact H.
    + exists []. repeat split. now intros c rest [= <- _].
Qed.

Lemma forallb_rev (p : N -> bool) (s : jsstring) :
  forallb p (rev s) = forallb p s.
Proof.
  induction s as [|a s IH]; simpl; [reflexivity|].
  rewrite forallb_app, IH. simpl. rewrite andb_true_r. apply andb_comm.
Qed.

(** [trim] takes away a run of white space at each end and nothing else,
    and what it leaves has no white space at either end. *)
Lemma trim_split (s : jsstring) :
  exists pre post,
    s = pre ++ trim s ++ post
    /\ forallb isWhiteSpace pre = true
    /\ forallb isWhiteSpace post = true
    /\ tight (trim s).
Proof.
  unfold trim, trimEnd.
  destruct (trimStart_split s) as (pre & E & W & H).
  destruct (trimStart_split (rev (trimStart s))) as (q & E' & W' & H').
  exists pre, (rev q). split; [|split; [exact W|split]].
  - rewrite <- rev_app_distr, <- E', rev_involutive. exact E.
  - now rewrite forallb_rev.
  - split.
    + intros c rest T. apply (H c (rest ++ rev q)).
      rewrite <- (rev_involutive (trimStart s)), E', rev_app_distr, T.
      reflexivity.
    + intros front c T. apply (H' c (rev front)).
      rewrite <- (rev_involutive (trimStart (rev (trimStart s)))), T.
      rewrite rev_app_distr. reflexivity.
Qed.

(** ** The warning *)




Lemma waitTrace_runs (env : Env) (ms : Z) (st : Store) :
  List.filter isRun (waitTrace env ms st) = [].
Proof.
  destruct (waitTrace_shape env ms st) as (w1 & w2 & -> & W1 & W2).
  simpl. rewrite List.filter_app. simpl.
  rewrite !(warnings_filtered isRun) by (auto; now intros []).
  reflexivity.
Qed.



(** ** What is run *)

(** X2.  A call starts a process exactly when it gets past the gate, and
    then exactly one, in the session it acquired and with the command text
    it was given; when confirmation is required the prompt, which shows
    that same text, comes before every other effect. *)
Theorem approved_command_runs_once (env : Env) (this : ExecuteCommandTool)
  (cmd : jsstring) (dir : option jsstring) (modify bg : bool) (ms : Z)
  (st : Store) :
  let r := execute env this cmd dir (Some modify) (Some bg) (Some ms) st in
  let i := id (value (getOrCreateTerminal (orElse dir (cwd this)) st)) in
  List.filter isRun (trace r)
  = (if proceeds env modify then [RunCommand i cmd] else [])
  /\ (shouldConfirm env modify = true ->
      exists rest,
        trace r
        = Confirm (lit "Execute Command?") cmd (lit "Execute Command")
            (lit "Deny") :: rest
        /\ List.filter isConfirm rest = []).
Proof.
  intros r i. subst r. destruct (proceeds env modify) eqn:P.
  - rewrite execute_proceeds by exact P. fold i. unfold trace. cbn [snd].
    split.
    + rewrite !List.filter_app. unfold gateTrace.
      assert (W : List.filter isRun
                    (if bg then []
                     else waitTrace env ms
                            (store (getOrCreateTerminal
                                      (orElse dir (cwd this)) st)))
                  = []).
      { destruct bg; [reflexivity | apply waitTrace_runs]. }
      rewrite W. now destruct (shouldConfirm env modify).
    + intros S. unfold gateTrace. rewrite S. eexists. split; [reflexivity|].
      rewrite List.filter_app. simpl.
      destruct bg; [reflexivity | apply waitTrace_prompts].
  - rewrite execute_denied by exact P. unfold trace. cbn [snd].
    split; [reflexivity|]. intros _. eexists. split; reflexivity.
Qed.

(** ** What the report keeps of the output *)

(** X4.  In a foreground call the output shown in the text is the
    delivered lines joined by line feeds, less a run of white space at the
    start and one at the end: nothing inside is removed, and what is shown
    neither starts nor ends with white space. *)
Theorem reported_output_loses_only_outer_space (env : Env)
  (this : ExecuteCommandTool) (cmd : jsstring) (dir : option jsstring)
  (modify : bool) (ms : Z) (st : Store) :
  proceeds env modify = true ->
  let r := execute env this cmd dir (Some modify) (Some false) (Some ms) st in
  let i := id (value (getOrCreateTerminal (orElse dir (cwd this)) st)) in
  exists pre out post,
    join nl (linesOf (delivered env)) = pre ++ out ++ post
    /\ forallb isWhiteSpace pre = true
    /\ forallb isWhiteSpace post = true
    /\ tight out
    /\ theText (value r)
       = if hasCompleted (delivered env)
         then completedText i out else stillRunningText i ms out.
Proof.
  intros P r i. subst r.
  destruct (trim_split (join nl (linesOf (delivered env))))
    as (pre & post & E & W1 & W2 & T).
  exists pre, (trim (join nl (linesOf (delivered env)))), post.
  repeat split; try assumption; try apply T.
  rewrite execute_proceeds by exact P. fold i.
  unfold value at 1, theText. cbn [fst snd text formatResponse.toolResult].
  rewrite atRead_completed, atRead_result, trim_buffer.
  now destruct (hasCompleted (delivered env)).
Qed.

(** ** What the timeout and the events change *)

(** X5.  The timeout shows only in the report of a command that is still
    running: a denied call, a background call and a call whose command has
    completed return the same result and leave the same pool whatever the
    timeout, while for a command still running a timeout other than 300000
    gives another text than 300000 does. *)
Theorem timeout_only_shapes_running_report (env : Env)
  (this : ExecuteCommandTool) (cmd : jsstring) (dir : option jsstring)
  (modify bg : bool) (st : Store) :
  let run ms := execute env this cmd dir (Some modify) (Some bg) (Some ms) st in
  (proceeds env modify = false \/ bg = true
   \/ hasCompleted (delivered env) = true ->
   forall ms1 ms2,
     value (run ms1) = value (run ms2) /\ store (run ms1) = store (run ms2))
  /\ (proceeds env modify = true -> bg = false ->
      hasCompleted (delivered env) = false ->
      forall ms, ms <> 300000%Z ->
        theText (value (run ms)) <> theText (value (run 300000%Z))).
Proof.
  cbv zeta. split.
  - intros H ms1 ms2. destruct (proceeds env modify) eqn:P.
    + rewrite !execute_proceeds by exact P. unfold value, store. cbn [fst snd].
      split; [|reflexivity]. destruct bg; [reflexivity|].
      rewrite atRead_completed.
      destruct H as [H|[H|H]]; [discriminate|discriminate|].
      now rewrite H.
    + now rewrite !execute_denied by exact P.
  - intros P -> C ms Hms. rewrite !execute_proceeds by exact P.
    unfold value at 1 3, theText. cbn [fst snd text formatResponse.toolResult].
    rewrite atRead_completed, C. unfold stillRunningText, timeoutMessage.
    rewrite bool_decide_eq_true_2 by exact Hms.
    rewrite bool_decide_eq_false_2 by (intros X; now apply X).
    intros E. do 3 apply app_inv_head in E. discriminate E.
Qed.

(** X6.  Of the events delivered while it waits, a call that got past the
    gate reports only the lines, in order, and whether a [completed] event
    was among them: how the events fall between the race and the delay,
    where [completed] stands among the lines and whether shell integration
    is missing change neither the result nor the pool.  In background mode
    the events change nothing at all. *)
Theorem result_reads_lines_and_completion (env1 env2 : Env)
  (this : ExecuteCommandTool) (cmd : jsstring) (dir : option jsstring)
  (modify bg : bool) (ms : Z) (st : Store) :
  proceeds env1 modify = true ->
  proceeds env2 modify = true ->
  bg = true
  \/ (linesOf (delivered env1) = linesOf (delivered env2)
      /\ hasCompleted (delivered env1) = hasCompleted (delivered env2)) ->
  let r1 := execute env1 this cmd dir (Some modify) (Some bg) (Some ms) st in
  let r2 := execute env2 this cmd dir (Some modify) (Some bg) (Some ms) st in
  value r1 = value r2 /\ store r1 = store r2.
Proof.
  intros P1 P2 H r1 r2. subst r1 r2.
  rewrite (execute_proceeds env1), (execute_proceeds env2) by assumption.
  unfold value at 1 5, store at 1 5. cbn [fst snd]. split; [|reflexivity].
  destruct H as [->|[L C]]; [reflexivity|].
  now rewrite !atRead_completed, !atRead_result, L, C.
Qed.

(** ** The schema *)

Lemma optional_string_spec (j : Zod.json) (o : option jsstring) :
  Zod.optional Zod.string j = Some o
  <-> j = match o with Some s => Zod.JString s | None => Zod.JUndefined end.
Proof.
  split.
  - destruct j; simpl; intros [= <-]; reflexivity.
  - intros ->. now destruct o.
Qed.

Lemma default_boolean_spec (d b : bool) (j : Zod.json) :
  Zod.default (Zod.optional Zod.boolean) d j = Some b
  <-> givenOrDefault Zod.JBool d b j.
Proof.
  unfold givenOrDefault. split.
  - destruct j; simpl; intros [= <-]; auto.
  - intros [->|[-> ->]]; reflexivity.
Qed.

Lemma default_number_spec (d z : Z) (j : Zod.json) :
  Zod.default (Zod.optional Zod.number) d j = Some z
  <-> givenOrDefault Zod.JNumber d z j.
Proof.
  unfold givenOrDefault. split.
  - destruct j; simpl; intros [= <-]; auto.
  - intros [->|[-> ->]]; reflexivity.
Qed.

(** X7.  A request that spells out every field of some parameters is
    accepted and read back as exactly those parameters: a value that is
    given is never replaced by a default, and every string, the empty one
    too, is accepted as a command. *)
Theorem schema_round_trip (p : Params) :
  executeCommandSchema (toRequest p) = Some p.
Proof.
  destruct p as [c [d|] m b t]; reflexivity.
Qed.

(** X8.  The requests the schema accepts are exactly those in which
    [command] is a string, [customCwd] is a string or absent, and each of
    [modifySomething], [background] and [timeout] is of its type or absent,
    absent meaning the default.  Anything else in a field ([null], a value
    of another type) makes the whole request refused. *)
Theorem schema_accepts_exactly_well_typed (r : RawRequest) (p : Params) :
  executeCommandSchema r = Some p
  <-> raw_command r = Zod.JString (command p)
      /\ raw_customCwd r
         = match customCwd p with
           | Some s => Zod.JString s
           | None => Zod.JUndefined
           end
      /\ givenOrDefault Zod.JBool true (modifySomething p)
           (raw_modifySomething r)
      /\ givenOrDefault Zod.JBool false (background p) (raw_background r)
      /\ givenOrDefault Zod.JNumber 300000%Z (timeout p) (raw_timeout r).
Proof.
  rewrite <- optional_string_spec, <- !default_boolean_spec,
    <- default_number_spec.
  destruct r as [rc rd rm rb rt], p as [c d m b t].
  unfold executeCommandSchema. simpl. split.
  - destruct (Zod.string rc) as [c'|] eqn:Hc; [|discriminate].
    destruct (Zod.optional Zod.string rd); [|discriminate].
    destruct (Zod.default (Zod.optional Zod.boolean) true rm);
      [|discriminate].
    destruct (Zod.default (Zod.optional Zod.boolean) false rb);
      [|discriminate].
    destruct (Zod.default (Zod.optional Zod.number) 300000%Z rt);
      [|discriminate].
    intros [= -> -> -> -> ->]. repeat split.
    destruct rc; simpl in Hc; congruence.
  - intros (-> & -> & -> & -> & ->). reflexivity.
Qed.

(** * Properties of the entry point *)

Section Activation.

Import Extension.

Ltac unfold_X :=
  unfold mbind, X_bind, bind, mret, X_ret, ret, throw, tryCatch, attempt,
    appendLine, call, outcome, vars, calls in *;
  simpl in *.

(** ** The status bar *)

(** X9.  The last update of the status bar wins: an update writes the
    text, the tooltip and the command anew and shows the item, so nothing
    of an earlier update or of the item's earlier content is left; and
    while the item does not exist an update does nothing. *)
Theorem status_bar_last_update_wins (s1 s2 : Status)
  (item : option StatusBarItem) (it1 it2 : StatusBarItem) :
  updateServerStatusBar s2 (updateServerStatusBar s1 item)
  = updateServerStatusBar s2 item
  /\ updateServerStatusBar s2 (Some it1) = updateServerStatusBar s2 (Some it2)
  /\ updateServerStatusBar s2 None = None.
Proof.
  repeat split.
  - destruct item as [it|]; [|reflexivity]. now destruct s1, s2.
  - now destruct s2.
Qed.

(** X10.  The status can be read back from the item: two updates that
    leave equal items were made with the same status.  After an update the
    item is shown, and it offers to stop the server exactly for
    [running] and [tool_list_updated], to toggle it exactly for [stopped],
    and has no command exactly for [starting]. *)
Theorem status_bar_tells_status (s : Status) (it it' : StatusBarItem) :
  updateServerStatusBar s (Some it) = Some it' ->
  (forall s0 it0, updateServerStatusBar s0 (Some it0) = Some it' -> s0 = s)
  /\ visible it' = true
  /\ (command it' = Some (lit "mcpServer.stopServer")
      <-> s = running \/ s = tool_list_updated)
  /\ (command it' = Some (lit "mcpServer.toggleActiveStatus")
      <-> s = stopped)
  /\ (command it' = None <-> s = starting).
Proof.
  intros H. split.
  - intros s0 it0 H0. rewrite <- H in H0.
    destruct s0, s; try reflexivity; discriminate H0.
  - destruct s; injection H as <-; simpl;
      (split; [reflexivity|]);
      repeat split; try tauto; try discriminate;
      try (intros [?|?]; discriminate); auto.
Qed.

(** ** The blocks of [activate] *)

Lemma setStatuses_run (statuses : list Status) (v : Vars) :
  setStatuses statuses v
  = (inr tt,
     {| serverStatusBarItem := statusBarAfter statuses (serverStatusBarItem v);
        transport := transport v;
        portsAttributes := portsAttributes v |},
     []).
Proof.
  revert v. induction statuses as [|s l IH]; intros v.
  - now destruct v.
  - simpl. unfold_X. unfold setStatus. now rewrite IH.
Qed.

Lemma quiet_app (a b : list Call) : quiet (a ++ b) = quiet a ++ quiet b.
Proof. apply List.filter_app. Qed.

Lemma filter_quiet (p : Call -> bool) (cs : list Call) :
  (forall c, p c = true -> isAppendLine c = false) ->
  List.filter p cs = List.filter p (quiet cs).
Proof.
  intros H. induction cs as [|c cs IH]; simpl; [reflexivity|].
  destruct (p c) eqn:P.
  - rewrite (H c P). simpl. now rewrite P, IH.
  - destruct (isAppendLine c); simpl; rewrite ?P; exact IH.
Qed.

(** Setting up port forwarding never throws and changes no variable; it
    asks for the editor's commands and, when the forwarding command is
    among them, executes it for the port. *)
Lemma setUpPortForwarding_run (host : Host) (p : Z) (v : Vars) :
  outcome (setUpPortForwarding host p v) = inr tt
  /\ vars (setUpPortForwarding host p v) = v
  /\ quiet (calls (setUpPortForwarding host p v))
     = GetCommands
       :: (if forwardPortAvailable host
           then [ExecuteCommand (lit "remote-ssh.forwardPort") (PortArg p)]
           else []).
Proof.
  unfold setUpPortForwarding, forwardPortAvailable.
  destruct (getCommands host) as [e|commands]; unfold_X; [auto|].
  destruct (bool_decide (lit "remote-ssh.forwardPort" ∈ commands));
    unfold_X; [|auto].
  destruct (forwardPortFailure host); unfold_X; auto.
Qed.

(** Turning on automatic forwarding never throws; it lists the port when
    the setting is an array that does not hold it and nothing fails. *)
Lemma configureAutoForward_run (host : Host) (v : Vars) :
  let listed :=
    succeeded (autoForwardPortsFailure host) && portAbsent host v
    && succeeded (updateFailure host) in
  let ports' := from_option (fun ps => ps) [] (listedPorts v) ++ [portOf host] in
  outcome (configureAutoForward host (portOf host) v) = inr tt
  /\ vars (configureAutoForward host (portOf host) v)
     = {| serverStatusBarItem := serverStatusBarItem v;
          transport := transport v;
          portsAttributes :=
            if listed then Some (PortList ports') else portsAttributes v |}
  /\ quiet (calls (configureAutoForward host (portOf host) v))
     = ExecuteCommand (lit "remote.autoForwardPorts") (FlagArg true)
       :: (if succeeded (autoForwardPortsFailure host) && portAbsent host v
           then [ConfigUpdate (lit "portsAttributes") ports']
           else [])
  /\ (forall error,
        config_get (portsAttributes v) (PortList []) = NotAList error ->
        succeeded (autoForwardPortsFailure host) = true ->
        In (AppendLine (lit "Failed to configure automatic port forwarding: "
                        ++ error))
          (calls (configureAutoForward host (portOf host) v))).
Proof.
  unfold configureAutoForward, portAbsent, listedPorts.
  destruct v as [item tr ports].
  destruct (autoForwardPortsFailure host); unfold_X;
    [repeat split; discriminate|].
  destruct (config_get ports (PortList [])) as [ps|e]; unfold_X.
  - destruct (bool_decide (portOf host ∈ ps)); unfold_X;
      [repeat split; discriminate|].
    destruct (updateFailure host); unfold_X; repeat split; discriminate.
  - repeat split. intros error [= ->] _. auto.
Qed.

(** Starting the server throws what the construction of the transport or
    the connection throws; the transport variable is set as soon as the
    transport is constructed, and the status bar follows the statuses the
    transport reports and then, when the connection succeeded, its final
    status. *)
Lemma startServer_run (host : Host) (p : Z) (v : Vars) :
  outcome (startServer host p v)
  = match transportFailure host, connectFailure host with
    | Some e, _ => inl e
    | None, Some e => inl e
    | None, None => inr tt
    end
  /\ vars (startServer host p v)
     = {| serverStatusBarItem :=
            if succeeded (transportFailure host)
            then
              if succeeded (connectFailure host)
              then updateServerStatusBar (serverStatus host)
                     (statusBarAfter (statusChanges host)
                        (serverStatusBarItem v))
              else statusBarAfter (statusChanges host) (serverStatusBarItem v)
            else serverStatusBarItem v;
          transport :=
            if succeeded (transportFailure host)
            then Some {| port := p |} else transport v;
          portsAttributes := portsAttributes v |}
  /\ quiet (calls (startServer host p v))
     = (if isRemoteSSH host
        then GetCommands
             :: (if forwardPortAvailable host
                 then [ExecuteCommand (lit "remote-ssh.forwardPort")
                         (PortArg p)]
                 else [])
        else [])
       ++ NewBidiHttpTransport p
          :: (if succeeded (transportFailure host) then [Connect p] else []).
Proof.
  unfold startServer.
  pose proof (setUpPortForwarding_run host p v) as (O & V & Q).
  remember (setUpPortForwarding host p) as F eqn:EF.
  assert (G : forall w, setStatuses (statusChanges host) w
                        = (inr tt,
                           {| serverStatusBarItem :=
                                statusBarAfter (statusChanges host)
                                  (serverStatusBarItem w);
                              transport := transport w;
                              portsAttributes := portsAttributes w |}, []))
    by apply setStatuses_run.
  remember (setStatuses (statusChanges host)) as S eqn:ES.
  unfold quiet in *. destruct v as [item tr ports].
  destruct (isRemoteSSH host); unfold_X.
  - destruct (F _) as [[o w] t]. simpl in O, V, Q. subst o w.
    destruct (transportFailure host); unfold_X.
    + rewrite !List.filter_app, Q. simpl. rewrite app_nil_r. auto.
    + rewrite G. simpl.
      destruct (connectFailure host); unfold_X;
        rewrite !List.filter_app, Q; simpl; rewrite app_nil_r; auto.
  - destruct (transportFailure host); unfold_X; [auto|].
    rewrite G. simpl. destruct (connectFailure host); unfold_X; auto.
Qed.

Lemma ends_refl (s : list Call) : exists before, s = before ++ s.
Proof. now exists []. Qed.

Lemma ends_cons (c : Call) (l s : list Call) :
  (exists before, l = before ++ s) -> exists before, c :: l = before ++ s.
Proof. intros [b ->]. now exists (c :: b). Qed.

Lemma ends_app (k l s : list Call) :
  (exists before, l = before ++ s) -> exists before, k ++ l = before ++ s.
Proof. intros [b ->]. exists (k ++ b). now rewrite app_assoc. Qed.

(** [activate] as a whole: it never throws; its variables are those its
    blocks leave; apart from the lines it writes it makes the calls of its
    blocks between its own; and it ends by writing how the start went,
    registering the commands and writing that it is activated. *)
Lemma activate_run (name scheme : jsstring) (host : Host) (v : Vars) :
  let a := activate name scheme host v in
  let v1 :=
    {| serverStatusBarItem := Some createStatusBarItem;
       transport := transport v;
       portsAttributes := portsAttributes v |} in
  let forward := isRemoteSSH host && config_get (autoForwardPort host) true in
  let v2 :=
    if forward then vars (configureAutoForward host (portOf host) v1)
    else v1 in
  let v3 := vars (startServer host (portOf host) v2) in
  outcome a = inr tt
  /\ vars a = v3
  /\ quiet (calls a)
     = [ConsoleLog (lit "LMLMLM"); CreateOutputChannel name; CreateMcpServer;
        CreateStatusBarItem; PushSubscription;
        RegisterTextDocumentContentProvider scheme; PushSubscription]
       ++ (if forward
           then quiet (calls (configureAutoForward host (portOf host) v1))
           else [])
       ++ quiet (calls (startServer host (portOf host) v2))
       ++ [RegisterVSCodeCommands (transport v3)]
  /\ exists before,
       calls a
       = before
         ++ [AppendLine (startOutcomeLine host);
             RegisterVSCodeCommands (transport v3);
             AppendLine (name ++ lit " activated.")].
Proof.
  intros a v1 forward v2 v3. subst a. unfold activate.
  change (config_get (configuredPort host) 60100%Z) with (portOf host).
  fold forward.
  pose proof (configureAutoForward_run host v1) as (O1 & _).
  pose proof (startServer_run host (portOf host) v2) as (O2 & _).
  subst v3 v2.
  remember (configureAutoForward host (portOf host)) as CF eqn:ECF.
  remember (startServer host (portOf host)) as SS eqn:ESS.
  unfold startOutcomeLine, quiet in *. unfold_X. fold v1.
  destruct forward.
  - destruct (CF v1) as [[o1 w1] t1]. simpl in O1, O2 |- *. subst o1.
    destruct (SS w1) as [[o2 w2] t2]. simpl in O2 |- *.
    destruct (transportFailure host) as [e|];
      [|destruct (connectFailure host) as [e|]]; subst o2; simpl;
      rewrite ?List.filter_app, <- ?app_assoc; simpl;
      (repeat split;
       repeat first [apply ends_refl | apply ends_cons | apply ends_app]).
  - destruct (SS v1) as [[o2 w2] t2]. simpl in O2 |- *.
    destruct (transportFailure host) as [e|];
      [|destruct (connectFailure host) as [e|]]; subst o2; simpl;
      rewrite ?List.filter_app, <- ?app_assoc; simpl;
      (repeat split;
       repeat first [apply ends_refl | apply ends_cons | apply ends_app]).
Qed.

Lemma statusBarAfter_exists (statuses : list Status)
  (item : option StatusBarItem) :
  item <> None -> statusBarAfter statuses item <> None.
Proof.
  unfold statusBarAfter. revert item.
  induction statuses as [|s l IH]; intros item H; simpl; [exact H|].
  apply IH. destruct item as [it|]; [discriminate | congruence].
Qed.

Lemma update_after_statuses (s : Status) (statuses : list Status)
  (it : StatusBarItem) :
  updateServerStatusBar s (statusBarAfter statuses (Some it))
  = updateServerStatusBar s (Some it).
Proof.
  unfold statusBarAfter. revert it.
  induction statuses as [|s0 l IH]; intros it; simpl; [reflexivity|].
  destruct s0; simpl; rewrite IH; now destruct s.
Qed.

(** The variables [activate] leaves. *)
Lemma activate_vars (name scheme : jsstring) (host : Host) (v : Vars) :
  vars (activate name scheme host v)
  = {| serverStatusBarItem :=
         if succeeded (transportFailure host)
         then
           if succeeded (connectFailure host)
           then updateServerStatusBar (serverStatus host)
                  (Some createStatusBarItem)
           else statusBarAfter (statusChanges host)
                  (Some createStatusBarItem)
         else Some createStatusBarItem;
       transport :=
         if succeeded (transportFailure host)
         then Some {| port := portOf host |} else transport v;
       portsAttributes :=
         if listsPort host v
         then Some (PortList
                      (from_option (fun ps => ps) [] (listedPorts v)
                       ++ [portOf host]))
         else portsAttributes v |}.
Proof.
  destruct (activate_run name scheme host v) as (_ & -> & _).
  unfold listsPort.
  destruct (isRemoteSSH host && config_get (autoForwardPort host) true).
  - destruct (configureAutoForward_run host
                {| serverStatusBarItem := Some createStatusBarItem;
                   transport := transport v;
                   portsAttributes := portsAttributes v |})
      as (_ & -> & _).
    match goal with
    | |- context [startServer host (portOf host) ?w] =>
        destruct (startServer_run host (portOf host) w) as (_ & -> & _)
    end.
    cbn [serverStatusBarItem transport portsAttributes andb].
    now rewrite update_after_statuses.
  - destruct (startServer_run host (portOf host)
                {| serverStatusBarItem := Some createStatusBarItem;
                   transport := transport v;
                   portsAttributes := portsAttributes v |}) as (_ & -> & _).
    cbn [serverStatusBarItem transport portsAttributes andb].
    now rewrite update_after_statuses.
Qed.

(** The calls [activate] makes, apart from the lines it writes. *)
Lemma activate_calls (name scheme : jsstring) (host : Host) (v : Vars) :
  quiet (calls (activate name scheme host v))
  = [ConsoleLog (lit "LMLMLM"); CreateOutputChannel name; CreateMcpServer;
     CreateStatusBarItem; PushSubscription;
     RegisterTextDocumentContentProvider scheme; PushSubscription]
    ++ (if isRemoteSSH host && config_get (autoForwardPort host) true
        then ExecuteCommand (lit "remote.autoForwardPorts") (FlagArg true)
             :: (if succeeded (autoForwardPortsFailure host)
                    && portAbsent host v
                 then [ConfigUpdate (lit "portsAttributes")
                         (from_option (fun ps => ps) [] (listedPorts v)
                          ++ [portOf host])]
                 else [])
        else [])
    ++ (if isRemoteSSH host
        then GetCommands
             :: (if forwardPortAvailable host
                 then [ExecuteCommand (lit "remote-ssh.forwardPort")
                         (PortArg (portOf host))]
                 else [])
        else [])
    ++ NewBidiHttpTransport (portOf host)
       :: (if succeeded (transportFailure host)
           then [Connect (portOf host)] else [])
    ++ [RegisterVSCodeCommands
          (if succeeded (transportFailure host)
           then Some {| port := portOf host |} else transport v)].
Proof.
  pose proof (activate_vars name scheme host v) as V.
  destruct (activate_run name scheme host v) as (_ & V' & -> & _).
  rewrite <- V', V. cbn [transport].
  destruct (isRemoteSSH host && config_get (autoForwardPort host) true).
  - destruct (configureAutoForward_run host
                {| serverStatusBarItem := Some createStatusBarItem;
                   transport := transport v;
                   portsAttributes := portsAttributes v |})
      as (_ & _ & -> & _).
    cbn [portsAttributes].
    match goal with
    | |- context [startServer host (portOf host) ?w] =>
        destruct (startServer_run host (portOf host) w) as (_ & _ & ->)
    end.
    now rewrite <- !app_assoc.
  - destruct (startServer_run host (portOf host)
                {| serverStatusBarItem := Some createStatusBarItem;
                   transport := transport v;
                   portsAttributes := portsAttributes v |}) as (_ & _ & ->).
    now rewrite <- !app_assoc.
Qed.

(** ** Activation *)

(** X11.  Activation never throws, whatever fails on the way (listing the
    editor's commands, forwarding the port, writing the settings,
    constructing the transport, connecting): it always comes to register
    the commands and to write that the extension is activated, and it
    leaves a status bar item behind. *)
Theorem activation_survives_failures (name scheme : jsstring) (host : Host)
  (v : Vars) :
  let a := activate name scheme host v in
  outcome a = inr tt
  /\ serverStatusBarItem (vars a) <> None
  /\ exists before,
       calls a
       = before
         ++ [RegisterVSCodeCommands (transport (vars a));
             AppendLine (name ++ lit " activated.")].
Proof.
  destruct (activate_run name scheme host v) as (O & V & _ & before & E).
  cbv zeta. split; [exact O|]. split.
  - rewrite activate_vars. cbn [serverStatusBarItem].
    destruct (succeeded (transportFailure host)); [|discriminate].
    destruct (succeeded (connectFailure host)).
    + now destruct (serverStatus host).
    + now apply statusBarAfter_exists.
  - exists (before ++ [AppendLine (startOutcomeLine host)]).
    rewrite E, V, <- app_assoc. reflexivity.
Qed.

(** X12.  Activation tries to start the server exactly once, on the
    configured port (60100 when none is configured), whether or not port
    forwarding could be set up; it connects exactly when the transport
    could be constructed. *)
Theorem server_started_once_on_configured_port (name scheme : jsstring)
  (host : Host) (v : Vars) :
  let a := activate name scheme host v in
  List.filter isNewTransport (calls a) = [NewBidiHttpTransport (portOf host)]
  /\ List.filter isConnect (calls a)
     = (if succeeded (transportFailure host)
        then [Connect (portOf host)] else [])
  /\ (configuredPort host = None -> portOf host = 60100%Z).
Proof.
  cbv zeta.
  rewrite (filter_quiet isNewTransport), (filter_quiet isConnect)
    by (now intros []).
  rewrite activate_calls, !List.filter_app. repeat split.
  - destruct (isRemoteSSH host), (config_get (autoForwardPort host) true),
      (succeeded (autoForwardPortsFailure host)),
      (portAbsent host v),
      (forwardPortAvailable host), (succeeded (transportFailure host));
      reflexivity.
  - destruct (isRemoteSSH host), (config_get (autoForwardPort host) true),
      (succeeded (autoForwardPortsFailure host)),
      (portAbsent host v),
      (forwardPortAvailable host), (succeeded (transportFailure host));
      reflexivity.
  - unfold portOf. now intros ->.
Qed.

(** X13.  Outside an SSH remote, activation does nothing about port
    forwarding: it does not ask for the editor's commands, executes none
    and does not write the settings, and the list of forwarded ports is as
    it was. *)
Theorem no_forwarding_outside_ssh (name scheme : jsstring) (host : Host)
  (v : Vars) :
  remoteName host <> Some (lit "ssh-remote") ->
  let a := activate name scheme host v in
  List.filter isForwarding (calls a) = []
  /\ portsAttributes (vars a) = portsAttributes v.
Proof.
  intros H a. subst a.
  assert (R : isRemoteSSH host = false)
    by (unfold isRemoteSSH; now rewrite bool_decide_eq_false_2).
  split.
  - rewrite (filter_quiet isForwarding) by (now intros []).
    rewrite activate_calls, R, !List.filter_app. simpl.
    now destruct (succeeded (transportFailure host)).
  - rewrite activate_vars. unfold listsPort. now rewrite R.
Qed.

Lemma activate_keeps_autoforward_calls (name scheme : jsstring)
  (host : Host) (v : Vars) (c : Call) :
  isRemoteSSH host && config_get (autoForwardPort host) true = true ->
  In c (calls (configureAutoForward host (portOf host)
                 {| serverStatusBarItem := Some createStatusBarItem;
                    transport := transport v;
                    portsAttributes := portsAttributes v |})) ->
  In c (calls (activate name scheme host v)).
Proof.
  intros F. unfold activate.
  change (config_get (configuredPort host) 60100%Z) with (portOf host).
  rewrite F.
  remember (configureAutoForward host (portOf host)) as CF eqn:ECF.
  remember (startServer host (portOf host)) as SS eqn:ESS.
  unfold_X.
  destruct (CF _) as [[[e1|[]] w1] t1]; simpl.
  - intros H. do 9 right. exact H.
  - destruct (SS w1) as [[[e2|[]] w2] t2]; simpl; intros H; do 9 right;
      rewrite <- ?app_assoc; apply in_or_app; now left.
Qed.

(** X14.  On a setting that is an array of ports, activation adds its port
    exactly on an SSH remote with automatic forwarding wanted and turned
    on without failure, the port not in the array and the settings written
    without failure; then the port goes to the end.  It writes the settings
    at most once, and not at all when the port is in the array already, so
    an array without repetition stays without repetition.  On a setting
    that is not an array, the call of [includes] throws inside the [try]
    block: nothing is written, the setting stays as it was, and the failure
    is written to the output channel. *)
Theorem port_listed_at_most_once (name scheme : jsstring) (host : Host)
  (v : Vars) :
  let a := activate name scheme host v in
  let wanted :=
    isRemoteSSH host && config_get (autoForwardPort host) true
    && succeeded (autoForwardPortsFailure host) in
  (forall ports,
     config_get (portsAttributes v) (PortList []) = PortList ports ->
     let absent := negb (bool_decide (portOf host ∈ ports)) in
     portsAttributes (vars a)
     = (if wanted && absent && succeeded (updateFailure host)
        then Some (PortList (ports ++ [portOf host]))
        else portsAttributes v)
     /\ List.filter isConfigUpdate (calls a)
        = (if wanted && absent
           then [ConfigUpdate (lit "portsAttributes")
                   (ports ++ [portOf host])]
           else [])
     /\ (NoDup ports ->
         exists ports',
           config_get (portsAttributes (vars a)) (PortList [])
           = PortList ports'
           /\ NoDup ports'))
  /\ (forall error,
        config_get (portsAttributes v) (PortList []) = NotAList error ->
        portsAttributes (vars a) = portsAttributes v
        /\ List.filter isConfigUpdate (calls a) = []
        /\ (wanted = true ->
            In (AppendLine
                  (lit "Failed to configure automatic port forwarding: "
                   ++ error))
              (calls a))).
Proof.
  cbv zeta. split.
  - intros ports E.
    assert (A : portAbsent host v = negb (bool_decide (portOf host ∈ ports)))
      by (unfold portAbsent, listedPorts; now rewrite E).
    assert (L : listedPorts v = Some ports)
      by (unfold listedPorts; now rewrite E).
    rewrite activate_vars. cbn [portsAttributes]. unfold listsPort.
    rewrite A, L. cbn [from_option]. split; [reflexivity|]. split.
    + rewrite (filter_quiet isConfigUpdate) by (now intros []).
      rewrite activate_calls, !List.filter_app, A, L. cbn [from_option].
      destruct (isRemoteSSH host), (config_get (autoForwardPort host) true),
        (succeeded (autoForwardPortsFailure host)),
        (bool_decide (portOf host ∈ ports)),
        (forwardPortAvailable host), (succeeded (transportFailure host));
        reflexivity.
    + intros N.
      destruct (bool_decide (portOf host ∈ ports)) eqn:B.
      * rewrite !andb_false_r. simpl. exists ports. now split.
      * apply bool_decide_eq_false in B.
        destruct (isRemoteSSH host && config_get (autoForwardPort host) true
                  && succeeded (autoForwardPortsFailure host) && negb false
                  && succeeded (updateFailure host));
          [|exists ports; now split].
        exists (ports ++ [portOf host]). split; [reflexivity|].
        apply NoDup_app. repeat split.
        -- exact N.
        -- intros x Hx Hin. apply list_elem_of_singleton in Hin. now subst x.
        -- apply NoDup_singleton.
  - intros error E.
    assert (A : portAbsent host v = false)
      by (unfold portAbsent, listedPorts; now rewrite E).
    rewrite activate_vars. cbn [portsAttributes]. unfold listsPort.
    rewrite A, !andb_false_r. simpl. split; [reflexivity|]. split.
    + rewrite (filter_quiet isConfigUpdate) by (now intros []).
      rewrite activate_calls, !List.filter_app, A.
      destruct (isRemoteSSH host), (config_get (autoForwardPort host) true),
        (succeeded (autoForwardPortsFailure host)),
        (forwardPortAvailable host), (succeeded (transportFailure host));
        reflexivity.
    + intros W. apply andb_true_iff in W as [F S].
      apply (activate_keeps_autoforward_calls name scheme host v _ F).
      apply configureAutoForward_run; assumption.
Qed.

(** X15.  The line written just before the commands are registered tells
    how the start went: that the server started on the port, or that it
    failed, with the failure's own text.  The transport variable, which is
    what the commands are registered with, holds the new transport as soon
    as it could be constructed, even when connecting failed, and keeps its
    earlier value ([undefined] on a first activation) when it could not. *)
Theorem start_outcome_logged_and_transport_kept (name scheme : jsstring)
  (host : Host) (v : Vars) :
  let a := activate name scheme host v in
  (exists before,
     calls a
     = before
       ++ [AppendLine (startOutcomeLine host);
           RegisterVSCodeCommands (transport (vars a));
           AppendLine (name ++ lit " activated.")])
  /\ transport (vars a)
     = (if succeeded (transportFailure host)
        then Some {| port := portOf host |} else transport v)
  /\ (forall e, transportFailure host = Some e ->
      startOutcomeLine host = lit "Failed to start MCP Server: " ++ e)
  /\ (forall e, transportFailure host = None ->
      connectFailure host = Some e ->
      startOutcomeLine host = lit "Failed to start MCP Server: " ++ e)
  /\ (transportFailure host = None -> connectFailure host = None ->
      startOutcomeLine host
      = lit "MCP Server started on port " ++ Number_toString (portOf host)
        ++ lit ".").
Proof.
  cbv zeta. split; [|split].
  - destruct (activate_run name scheme host v) as (_ & -> & _ & H). exact H.
  - now rewrite activate_vars.
  - unfold startOutcomeLine. repeat split.
    + now intros e ->.
    + now intros e -> ->.
    + now intros -> ->.
Qed.

(** X16.  Activation asks for the port to be forwarded exactly when it
    runs on an SSH remote and the editor's commands could be listed and
    hold the forwarding command; it then asks once, for the port the
    server is started on. *)
Theorem forward_port_asked_iff_available (name scheme : jsstring)
  (host : Host) (v : Vars) :
  List.filter isForwardPort (calls (activate name scheme host v))
  = if isRemoteSSH host && forwardPortAvailable host
    then [ExecuteCommand (lit "remote-ssh.forwardPort")
            (PortArg (portOf host))]
    else [].
Proof.
  rewrite (filter_quiet isForwardPort) by (now intros [| | | | | | | |? []| | | |]).
  rewrite activate_calls, !List.filter_app.
  destruct (isRemoteSSH host), (config_get (autoForwardPort host) true),
    (succeeded (autoForwardPortsFailure host)),
    (portAbsent host v),
    (forwardPortAvailable host), (succeeded (transportFailure host));
    reflexivity.
Qed.

(** X17.  After activation the status bar shows the transport's final
    status when the server connected, whatever statuses were reported on
    the way; it shows the last status reported when connecting failed; and
    when the transport could not be constructed the item is as created,
    never shown. *)
Theorem status_bar_after_activation (name scheme : jsstring) (host : Host)
  (v : Vars) :
  let item := serverStatusBarItem (vars (activate name scheme host v)) in
  (transportFailure host = None -> connectFailure host = None ->
   item = updateServerStatusBar (serverStatus host) (Some createStatusBarItem))
  /\ (transportFailure host = None -> connectFailure host <> None ->
      item = statusBarAfter (statusChanges host) (Some createStatusBarItem))
  /\ (transportFailure host <> None ->
      item = Some createStatusBarItem /\ visible <$> item = Some false).
Proof.
  cbv zeta. rewrite activate_vars. cbn [serverStatusBarItem]. repeat split.
  - now intros -> ->.
  - intros -> H. now destruct (connectFailure host).
  - now destruct (transportFailure host).
  - now destruct (transportFailure host).
Qed.

End Activation.

(** * Further properties of the handler *)

(** Every text [execute] returns begins with the word [Command]. *)
Lemma execute_text_begins (env : Env) (this : ExecuteCommandTool)
  (cmd : jsstring) (dir : option jsstring) (modify bg : bool) (ms : Z)
  (st : Store) :
  exists rest,
    theText
      (value (execute env this cmd dir (Some modify) (Some bg) (Some ms) st))
    = lit "Command " ++ rest.
Proof.
  destruct (proceeds env modify) eqn:P.
  - rewrite execute_proceeds by exact P.
    unfold value, theText. cbn [fst snd text formatResponse.toolResult].
    destruct bg; [|destruct (completed _)]; eexists; reflexivity.
  - rewrite execute_denied by exact P. eexists. reflexivity.
Qed.

(** X1.  The handler answers [No workspace folder is open] exactly when
    there is no first workspace folder with a path that is not empty:
    no folders at all, an empty list of folders, or a first folder whose
    path is empty, whatever folders follow.  It then touches nothing: no
    prompt, no session, no process, the pool as it was.  With a root, it
    runs [execute] in a tool for the first folder and nothing else: the
    one text of the answer is the text [execute] returns, which begins
    with [Command], and the effects and the pool are those of
    [execute]. *)
Theorem missing_workspace_told_by_text (folders : option (list jsstring))
  (env : Env) (params : Params) (st : Store) :
  let r := executeCommandToolHandler folders env params st in
  (content (value r) = [lit "No workspace folder is open"]
   <-> resolvable (firstFolder folders) = false)
  /\ (resolvable (firstFolder folders) = false ->
      store r = st /\ trace r = [])
  /\ (resolvable (firstFolder folders) = true ->
      exists root others,
        folders = Some (root :: others)
        /\ let e :=
             execute env (newExecuteCommandTool root) (command params)
               (customCwd params) (Some (modifySomething params))
               (Some (background params)) (Some (timeout params)) st in
           content (value r) = [theText (value e)]
           /\ startsWith (theText (value e)) (lit "Command ")
           /\ store r = store e
           /\ trace r = trace e).
Proof.
  intros r. subst r.
  assert (Y : resolvable (firstFolder folders) = true ->
              exists root others,
                folders = Some (root :: others)
                /\ let e :=
                     execute env (newExecuteCommandTool root)
                       (command params) (customCwd params)
                       (Some (modifySomething params))
                       (Some (background params)) (Some (timeout params))
                       st in
                   content
                     (value (executeCommandToolHandler folders env params st))
                   = [theText (value e)]
                   /\ startsWith (theText (value e)) (lit "Command ")
                   /\ store (executeCommandToolHandler folders env params st)
                      = store e
                   /\ trace (executeCommandToolHandler folders env params st)
                      = trace e).
  { destruct folders as [[|[|c root] others]|]; try discriminate.
    intros _. exists (c :: root), others. split; [reflexivity|]. cbv zeta.
    pose proof (execute_text_begins env (newExecuteCommandTool (c :: root))
                  (command params) (customCwd params) (modifySomething params)
                  (background params) (timeout params) st) as B.
    unfold executeCommandToolHandler. simpl firstFolder. simpl truthy.
    unfold_M. unfold theText in *.
    destruct (execute _ _ _ _ _ _ _ st) as [[[s resp] st'] tr].
    simpl in *. rewrite app_nil_r. repeat split. exact B. }
  split; [split|split; [|exact Y]].
  - intros C. destruct (resolvable (firstFolder folders)) eqn:R;
      [|reflexivity].
    destruct (Y eq_refl) as (root & others & _ & C' & [rest B] & _).
    rewrite C', B in C. discriminate C.
  - intros R. now rewrite handler_without_root.
  - intros R. now rewrite handler_without_root.
Qed.

(** * The further properties at work *)

(** A first folder with an empty path, a good one after it: nothing is
    done. *)
Lemma empty_first_folder_does_nothing :
  trace (executeCommandToolHandler (Some [[]; lit "/ws"]) printsHi echoHi
           emptyStore)
  = [].
Proof.
  apply (missing_workspace_told_by_text (Some [[]; lit "/ws"]) printsHi
           echoHi emptyStore).
  reflexivity.
Defined.

(** [make], approved: the prompt comes first and is the only one. *)
Lemma make_prompted_first :
  exists rest,
    trace (execute stillBusy wsTool (lit "make") None (Some true)
             (Some false) (Some 5%Z) emptyStore)
    = Confirm (lit "Execute Command?") (lit "make") (lit "Execute Command")
        (lit "Deny") :: rest
    /\ List.filter isConfirm rest = [].
Proof.
  apply (approved_command_runs_once stillBusy wsTool (lit "make") None true
           false 5 emptyStore).
  reflexivity.
Defined.

(** Blank lines around [ built ]: the output shown has lost only white
    space at its ends. *)
Lemma built_output_is_tight :
  exists pre out post,
    join nl (linesOf (delivered noIntegration)) = pre ++ out ++ post
    /\ forallb isWhiteSpace pre = true
    /\ forallb isWhiteSpace post = true
    /\ tight out
    /\ theText
         (value (execute noIntegration wsTool (lit "make") None (Some true)
                   (Some false) (Some 5%Z) emptyStore))
       = completedText 1 out.
Proof.
  apply (reported_output_loses_only_outer_space noIntegration wsTool
           (lit "make") None true 5 emptyStore).
  reflexivity.
Defined.

(** [echo hi] completes: a timeout of 1 ms or of 2 ms, the same result. *)
Lemma echo_hi_whatever_the_timeout :
  value (execute printsHi wsTool (lit "echo hi") None (Some false)
           (Some false) (Some 1%Z) emptyStore)
  = value (execute printsHi wsTool (lit "echo hi") None (Some false)
             (Some false) (Some 2%Z) emptyStore).
Proof.
  apply (timeout_only_shapes_running_report printsHi wsTool (lit "echo hi")
           None false false emptyStore).
  right. right. reflexivity.
Defined.

(** The same lines with [completed] delivered first and shell integration
    present: the same result. *)
Lemma order_of_completed_is_not_reported :
  value (execute noIntegration wsTool (lit "make") None (Some true)
           (Some false) (Some 5%Z) emptyStore)
  = value (execute
             (world (lit "Approve")
                [Completed; Line []; Line (lit " built "); Line []])
             wsTool (lit "make") None (Some true) (Some false) (Some 5%Z)
             emptyStore).
Proof.
  apply (result_reads_lines_and_completion noIntegration
           (world (lit "Approve")
              [Completed; Line []; Line (lit " built "); Line []])
           wsTool (lit "make") None true false 5 emptyStore).
  - reflexivity.
  - reflexivity.
  - right. split; reflexivity.
Defined.

(** The request for [echo hi] is accepted: its command is a string. *)
Lemma echo_hi_request_well_typed :
  raw_command echoHiRequest = Zod.JString (command echoHi)
  /\ givenOrDefault Zod.JNumber 300000%Z (timeout echoHi)
       (raw_timeout echoHiRequest).
Proof.
  destruct (proj1 (schema_accepts_exactly_well_typed echoHiRequest echoHi))
    as (H1 & _ & _ & _ & H5).
  - reflexivity.
  - split; [exact H1 | exact H5].
Defined.

(** While the server is starting the item has no command. *)
Lemma starting_item_has_no_command :
  Extension.command
    {| Extension.text := lit "$(sync~spin) MCP Server";
       Extension.tooltip := Some (lit "Starting...");
       Extension.command := None;
       Extension.visible := true |}
  = None.
Proof.
  apply (status_bar_tells_status Extension.starting
           Extension.createStatusBarItem).
  - reflexivity.
  - reflexivity.
Defined.

(** No port configured: the server is started on 60100. *)
Lemma default_port_is_60100 : portOf sshHost = 60100%Z.
Proof.
  apply (server_started_once_on_configured_port [] [] sshHost
           (Extension.freshVars None)).
  reflexivity.
Defined.

(** A local window: nothing is done about port forwarding. *)
Lemma local_window_forwards_nothing :
  List.filter isForwarding
    (Extension.calls
       (Extension.activate (lit "MCP") (lit "mcp-diff") localHost
          (Extension.freshVars None)))
  = [].
Proof.
  apply (no_forwarding_outside_ssh (lit "MCP") (lit "mcp-diff") localHost
           (Extension.freshVars None)).
  discriminate.
Defined.

(** On an SSH remote with the editor's object as the setting, the
    failure of [includes] is written and the settings are not; with no
    setting yet, the port becomes the list. *)
Lemma object_setting_is_logged_not_written :
  In (Extension.AppendLine
        (lit "Failed to configure automatic port forwarding: "
         ++ lit "TypeError: portsToForward.includes is not a function"))
    (Extension.calls
       (Extension.activate (lit "MCP") (lit "mcp-diff") sshHost
          (Extension.freshVars
             (Some (Extension.NotAList
                      (lit "TypeError: portsToForward.includes is not a function"))))))
  /\ List.filter isConfigUpdate
       (Extension.calls
          (Extension.activate (lit "MCP") (lit "mcp-diff") sshHost
             (Extension.freshVars
                (Some (Extension.NotAList
                         (lit "TypeError: portsToForward.includes is not a function"))))))
     = []
  /\ Extension.portsAttributes
       (Extension.vars
          (Extension.activate (lit "MCP") (lit "mcp-diff") sshHost
             (Extension.freshVars None)))
     = Some (Extension.PortList [60100%Z]).
Proof.
  destruct (port_listed_at_most_once (lit "MCP") (lit "mcp-diff") sshHost
              (Extension.freshVars
                 (Some (Extension.NotAList
                          (lit "TypeError: portsToForward.includes is not a function")))))
    as (_ & H).
  destruct (H (lit "TypeError: portsToForward.includes is not a function"))
    as (_ & H2 & H3); [reflexivity|].
  destruct (port_listed_at_most_once (lit "MCP") (lit "mcp-diff") sshHost
              (Extension.freshVars None)) as (L & _).
  destruct (L []) as (L1 & _); [reflexivity|].
  split; [apply H3; reflexivity | split; [exact H2 | exact L1]].
Defined.


(** The transport cannot be constructed: the failure's text is written. *)
Lemma address_in_use_is_written :
  startOutcomeLine failingSshHost
  = lit "Failed to start MCP Server: " ++ lit "Error: EADDRINUSE".
Proof.
  destruct (start_outcome_logged_and_transport_kept (lit "MCP")
              (lit "mcp-diff") failingSshHost (Extension.freshVars None))
    as (_ & _ & H & _).
  apply H. reflexivity.
Defined.

(** The transport cannot be constructed: the status bar item is not
    shown. *)
Lemma failed_start_leaves_item_hidden :
  Extension.visible
  <$> Extension.serverStatusBarItem
        (Extension.vars
           (Extension.activate (lit "MCP") (lit "mcp-diff") failingSshHost
              (Extension.freshVars None)))
  = Some false.
Proof.
  destruct (status_bar_after_activation (lit "MCP") (lit "mcp-diff")
              failingSshHost (Extension.freshVars None)) as (_ & _ & H).
  apply H. discriminate.
Defined.
